(** * memgraph-unittest: the readiness wait and the count helpers

    A shallow embedding of [main.go] and [main_test.go].  The program talks
    to a graph database through the neo4j driver; the driver is external, so
    it is modelled as a script that says what its n-th call answers.  Every
    call the program makes on the outside world (connectivity probe, query,
    log line, sleep) is appended to a history, and a function of the
    program is a state transformer on that history which either returns,
    exits the process ([log.Fatalf]), or panics. *)

From Stdlib Require Import ZArith List String Ascii Bool Lia.
From Stdlib Require Import Decimal DecimalString.
Import ListNotations.

Local Open Scope string_scope.
Local Open Scope Z_scope.
Local Open Scope list_scope.

(* ================================================================== *)
(** ** The Go runtime, as far as the program uses it *)

Module Go.

(** [int] on a 64-bit platform: two's complement, silent wrap-around. *)
Definition int_min : Z := - 2 ^ 63.
Definition int_max : Z := 2 ^ 63 - 1.

Definition int_wrap (z : Z) : Z := (z + 2 ^ 63) mod 2 ^ 64 - 2 ^ 63.

(** [x++] *)
Definition int_incr (x : Z) : Z := int_wrap (x + 1).

(** A Go [error] is observed through its [Error()] text; [nil] is [None]. *)
Definition error : Type := string.

(** [time.Duration] counts nanoseconds. *)
Definition Duration : Type := Z.
Definition Second : Duration := 1000000000.

(** *** fmt *)

Inductive Arg : Type :=
| ArgInt (n : Z)
| ArgString (s : string).

(** [%d] on an integer *)
Definition fmt_d (n : Z) : string := NilZero.string_of_int (Z.to_int n).

(** One verb applied to one operand; a verb that does not fit its
    operand prints Go's [%!verb(type=value)] marker. *)
Definition render (verb : ascii) (a : Arg) : string :=
  match a with
  | ArgInt n =>
      if Ascii.eqb verb "d" || Ascii.eqb verb "v" then fmt_d n
      else ("%!" ++ String verb ("(int=" ++ fmt_d n ++ ")"))%string
  | ArgString s =>
      if Ascii.eqb verb "s" || Ascii.eqb verb "v" then s
      else ("%!" ++ String verb ("(string=" ++ s ++ ")"))%string
  end.

(** [fmt.Sprintf] for formats made of plain text and one-letter verbs. *)
Fixpoint Sprintf (format : string) (args : list Arg) : string :=
  match format with
  | EmptyString => EmptyString
  | String c EmptyString => String c EmptyString
  | String c (String v rest as tail) =>
      if Ascii.eqb c "%" then
        if Ascii.eqb v "%" then String "%" (Sprintf rest args)
        else
          match args with
          | a :: args' => (render v a ++ Sprintf rest args')%string
          | [] => ("%!" ++ String v "(MISSING)" ++ Sprintf rest [])%string
          end
      else String c (Sprintf tail args)
  end.

(** [fmt.Errorf] without [%w]: an error whose text is the formatted string. *)
Definition Errorf (format : string) (args : list Arg) : error :=
  Sprintf format args.

(** *** Values behind [any], and what the driver hands back *)

Inductive Value : Type :=
| VNil
| VBool (b : bool)
| VInt (n : Z)
| VInt64 (n : Z)
| VFloat64 (bits : Z)
| VString (s : string).

(** [neo4j.Record] *)
Record DbRecord : Type := mkRecord {
  Keys : list string;
  Values : list Value
}.

(** [neo4j.EagerResult]; [Records] is a slice of pointers. *)
Record EagerResult : Type := mkEagerResult {
  ResultKeys : list string;
  Records : list (option DbRecord)
}.

(** What [neo4j.ExecuteQuery] returns: [( *EagerResult, error )]. *)
Definition QueryReturn : Type := (option EagerResult * option error)%type.

(** *** Ways a call can end *)

Inductive RuntimePanic : Type :=
| NilDereference
| IndexOutOfRange (index length : nat)
| InterfaceConversion (dynamic : Value).

Inductive Outcome (A : Type) : Type :=
| Returns (a : A)
| Exits (status : Z) (msg : string)
| Panics (p : RuntimePanic)
| Unfinished.

Arguments Returns {A} a.
Arguments Exits {A} status msg.
Arguments Panics {A} p.
Arguments Unfinished {A}.

(** *** The history of outside calls *)

Inductive Level : Type := LevelInfo | LevelError.

Inductive Event : Type :=
| EvVerifyConnectivity (err : option error)
| EvExecuteQuery (query : string)
| EvNewSession
| EvSessionClose
| EvSlog (level : Level) (msg : string) (args : list (string * Z))
| EvSleep (d : Duration).

(** Oldest event first. *)
Definition World : Type := list Event.

Definition is_probe (e : Event) : bool :=
  match e with EvVerifyConnectivity _ => true | _ => false end.

Definition is_query (e : Event) : bool :=
  match e with EvExecuteQuery _ => true | _ => false end.

Definition is_slog (e : Event) : bool :=
  match e with EvSlog _ _ _ => true | _ => false end.

(** How many probes (queries) the history holds. *)
Definition probes (w : World) : nat := List.length (filter is_probe w).
Definition queries (w : World) : nat := List.length (filter is_query w).

(** The external driver: what its n-th connectivity check answers, and
    what its n-th query answers for a given statement. *)
Record Driver : Type := mkDriver {
  verify_at : nat -> option error;
  query_at : nat -> string -> QueryReturn
}.

(** *** Computations *)

Definition M (A : Type) : Type := World -> Outcome A * World.

Definition ret {A} (a : A) : M A := fun w => (Returns a, w).

Definition bind {A B} (c : M A) (k : A -> M B) : M B :=
  fun w =>
    match c w with
    | (Returns a, w') => k a w'
    | (Exits s m, w') => (Exits s m, w')
    | (Panics p, w') => (Panics p, w')
    | (Unfinished, w') => (Unfinished, w')
    end.

Definition emit (e : Event) : M unit := fun w => (Returns tt, w ++ [e]).

Definition panic {A} (p : RuntimePanic) : M A := fun w => (Panics p, w).

Definition unfinished {A} : M A := fun w => (Unfinished, w).

(** [driver.VerifyConnectivity(ctx)] *)
Definition VerifyConnectivity (d : Driver) : M (option error) :=
  fun w => let r := verify_at d (probes w) in
           (Returns r, w ++ [EvVerifyConnectivity r]).

(** [neo4j.ExecuteQuery(ctx, driver, query, nil, ...)] *)
Definition ExecuteQuery (d : Driver) (query : string) : M QueryReturn :=
  fun w => (Returns (query_at d (queries w) query), w ++ [EvExecuteQuery query]).

(** [driver.NewSession] and [session.Close] *)
Definition NewSession : M unit := emit EvNewSession.
Definition SessionClose : M unit := emit EvSessionClose.

(** [slog.Error], [slog.Info]: no result, cannot fail. *)
Definition slog_Error (msg : string) (args : list (string * Z)) : M unit :=
  emit (EvSlog LevelError msg args).
Definition slog_Info (msg : string) (args : list (string * Z)) : M unit :=
  emit (EvSlog LevelInfo msg args).

(** [time.Sleep] *)
Definition Sleep (d : Duration) : M unit := emit (EvSleep d).

(** [log.Fatalf]: print, then [os.Exit(1)]; deferred calls do not run. *)
Definition log_Fatalf {A} (format : string) (args : list Arg) : M A :=
  fun w => (Exits 1 (Sprintf format args), w).

(** [defer cleanup] around a function body: the deferred call runs when
    the body returns and when it panics, not when the process exits. *)
Definition defer {A} (cleanup : M unit) (body : M A) : M A :=
  fun w =>
    match body w with
    | (Returns a, w') =>
        match cleanup w' with
        | (Returns _, w'') => (Returns a, w'')
        | (Exits s m, w'') => (Exits s m, w'')
        | (Panics p, w'') => (Panics p, w'')
        | (Unfinished, w'') => (Unfinished, w'')
        end
    | (Panics p, w') =>
        match cleanup w' with
        | (Returns _, w'') => (Panics p, w'')
        | (Exits s m, w'') => (Exits s m, w'')
        | (Panics p', w'') => (Panics p', w'')
        | (Unfinished, w'') => (Unfinished, w'')
        end
    | other => other
    end.

(** [p.field] through a pointer *)
Definition deref {A} (p : option A) : M A :=
  match p with
  | Some a => ret a
  | None => panic NilDereference
  end.

(** [s[i]] on a slice *)
Definition index {A} (s : list A) (i : nat) : M A :=
  match nth_error s i with
  | Some a => ret a
  | None => panic (IndexOutOfRange i (List.length s))
  end.

(** [v.(int64)], the one-result form *)
Definition assert_int64 (v : Value) : M Z :=
  match v with
  | VInt64 n => ret n
  | other => panic (InterfaceConversion other)
  end.

(** How one pass through the body of a [for { ... }] ends. *)
Inductive Flow (R : Type) : Type :=
| Continue
| Break
| Return (r : R).

Arguments Continue {R}.
Arguments Break {R}.
Arguments Return {R} r.

(** [for { body }] over the locals [L] that the body updates.  The loop
    has no condition, so the model runs it on fuel; [None] is a [break],
    [Some r] a [return r] from inside. *)
Fixpoint for_loop {L R} (fuel : nat) (body : L -> M (L * Flow R)) (l : L)
  : M (L * option R) :=
  match fuel with
  | O => unfinished
  | S fuel' =>
      bind (body l) (fun '(l', f) =>
        match f with
        | Continue => for_loop fuel' body l'
        | Break => ret (l', None)
        | Return r => ret (l', Some r)
        end)
  end.


End Go.

Import Go.

Notation "x <- c ;; k" := (bind c (fun x => k))
  (at level 61, c at next level, right associativity).
Notation "' pat <- c ;; k" := (bind c (fun x => match x with pat => k end))
  (at level 61, pat pattern, c at next level, right associativity).
Notation "c ;; k" := (bind c (fun _ => k))
  (at level 61, right associativity).

(* ================================================================== *)
(** ** main.go *)

(** The body of the [for] loop of [waitFor] (lines 50-63); the local
    [attemps] goes in and comes out.  The test [attemps > 100] is reached
    only from the failure branch, the other one leaves the loop. *)
Definition waitFor_body (d : Driver) (attemps : Z)
  : M (Z * Flow (option error)) :=
  let attemps := int_incr attemps in
  err <- VerifyConnectivity d ;;
  match err with
  | Some _ =>
      slog_Error "Could not connect to memgraph" [("attempt", attemps)] ;;
      if 100 <? attemps then
        ret (attemps,
             Return (Some (Errorf
               "could not connect to memgraph even though it took %d attemps"
               [ArgInt attemps])))
      else
        Sleep (1 * Second) ;;
        ret (attemps, Continue)
  | None =>
      slog_Info "Connected to memgraph" [] ;;
      ret (attemps, Break)
  end.

(** [func waitFor(ctx, driver) error] *)
Definition waitFor (fuel : nat) (d : Driver) : M (option error) :=
  let attemps := 0 in
  ' (_, r) <- for_loop fuel (waitFor_body d) attemps ;;
  match r with
  | Some e => ret e
  | None => ret None
  end.

(** [result.Records[0].Values[0].(int64)] *)
Definition first_int64 (result : option EagerResult) : M Z :=
  res <- deref result ;;
  r0 <- index (Records res) 0 ;;
  rec <- deref r0 ;;
  v <- index (Values rec) 0 ;;
  assert_int64 v.

(** [func countAllNodes(ctx, driver) (int64, error)] *)
Definition countAllNodes (d : Driver) : M (Z * option error) :=
  let query := "MATCH (n) RETURN count(n);" in
  ' (result, err) <- ExecuteQuery d query ;;
  match err with
  | Some e => ret (0, Some e)
  | None => n <- first_int64 result ;; ret (n, None)
  end.

(** [func countAllEdges(ctx, driver) (int64, error)] *)
Definition countAllEdges (d : Driver) : M (Z * option error) :=
  let query := "MATCH ()-[]->() RETURN count(*);" in
  ' (result, err) <- ExecuteQuery d query ;;
  match err with
  | Some e => ret (0, Some e)
  | None => n <- first_int64 result ;; ret (n, None)
  end.

(* ================================================================== *)
(** ** main_test.go *)

(** [func deleteEverything(ctx, driver) error] *)
Definition deleteEverything (d : Driver) : M (option error) :=
  NewSession ;;
  defer SessionClose (
    let query := "MATCH (n) DETACH DELETE n;" in
    ' (_, err) <- ExecuteQuery d query ;;
    match err with
    | Some e => log_Fatalf "Could not delete everything: %s" [ArgString e]
    | None => ret None
    end).

(** The locals of [TestMain] that its readiness loop writes. *)
Record TestMainLocals : Type := mkLocals {
  attempts : Z;
  err : option error
}.

(** The body of the readiness loop of [TestMain] (lines 74-84). *)
Definition TestMain_wait_body (d : Driver) (l : TestMainLocals)
  : M (TestMainLocals * Flow Empty_set) :=
  let attempts := int_incr (attempts l) in
  err <- VerifyConnectivity d ;;
  let l' := mkLocals attempts err in
  match err with
  | None => ret (l', Break)
  | Some e =>
      if 10 <? attempts then
        log_Fatalf "Could not connect to memgraph: %s" [ArgString e]
      else
        Sleep (1 * Second) ;;
        ret (l', Continue)
  end.

(** Lines 72-85 of [TestMain]: wait for memgraph to be ready.  [err] is
    [nil] on entry, the check of line 66 has passed. *)
Definition TestMain_wait (fuel : nat) (d : Driver) : M unit :=
  for_loop fuel (TestMain_wait_body d) (mkLocals 0 None) ;;
  ret tt.

(* ================================================================== *)
(** ** Reading a history *)

(** What a run added to the history it started from. *)
Definition events_since (w w' : World) : list Event :=
  skipn (List.length w) w'.

Definition is_failed_probe (e : Event) : bool :=
  match e with EvVerifyConnectivity (Some _) => true | _ => false end.

Definition is_error_log (e : Event) : bool :=
  match e with EvSlog LevelError _ _ => true | _ => false end.

Definition is_info_log (e : Event) : bool :=
  match e with EvSlog LevelInfo _ _ => true | _ => false end.

Definition is_sleep (e : Event) : bool :=
  match e with EvSleep _ => true | _ => false end.

Definition failed_probes (t : list Event) : nat :=
  List.length (filter is_failed_probe t).

(** The outcome of the latest probe of a history, if it has one. *)
Fixpoint last_probe (t : list Event) : option (option error) :=
  match t with
  | [] => None
  | e :: t' =>
      match last_probe t' with
      | Some r => Some r
      | None => match e with
                | EvVerifyConnectivity r => Some r
                | _ => None
                end
      end
  end.

(** The sleeps of a stretch of history, cut at every probe: the first
    list is what precedes the first probe, the last what follows the last
    one. *)
Fixpoint sleeps_around_probes (cur : list Duration) (t : list Event)
  : list (list Duration) :=
  match t with
  | [] => [cur]
  | EvVerifyConnectivity _ :: t' => cur :: sleeps_around_probes [] t'
  | EvSleep d :: t' => sleeps_around_probes (cur ++ [d]) t'
  | _ :: t' => sleeps_around_probes cur t'
  end.

(** The sleeps between consecutive probes: one list per gap. *)
Definition sleeps_between_probes (t : list Event) : list (list Duration) :=
  removelast (tl (sleeps_around_probes [] t)).

(** A history without its log lines. *)
Definition erase_slog (t : list Event) : list Event :=
  filter (fun e => negb (is_slog e)) t.

(** The log line of the [n]-th failed attempt of [waitFor]. *)
Definition attempt_log (n : Z) : Event :=
  EvSlog LevelError "Could not connect to memgraph" [("attempt", n)].

Definition connected_log : Event :=
  EvSlog LevelInfo "Connected to memgraph" [].

(** The error [waitFor] gives up with. *)
Definition waitFor_timeout (attemps : Z) : error :=
  Errorf "could not connect to memgraph even though it took %d attemps"
         [ArgInt attemps].

(** What [k] failed passes of [waitFor] write, from probe number [c] and
    counter value [a] on. *)
Fixpoint waitFor_failures (d : Driver) (c : nat) (a : Z) (k : nat)
  : list Event :=
  match k with
  | O => []
  | S k' =>
      EvVerifyConnectivity (verify_at d c) :: attempt_log (a + 1)
        :: EvSleep Second :: waitFor_failures d (S c) (a + 1) k'
  end.

(** What [k] failed passes of the loop of [TestMain] write. *)
Fixpoint TestMain_failures (d : Driver) (c : nat) (k : nat) : list Event :=
  match k with
  | O => []
  | S k' =>
      EvVerifyConnectivity (verify_at d c) :: EvSleep Second
        :: TestMain_failures d (S c) k'
  end.

(** The first [n] probes from number [c] on all fail. *)
Definition fails_from (d : Driver) (c n : nat) : Prop :=
  forall i, (i < n)%nat -> verify_at d (c + i) <> None.

(** Two drivers succeed and fail at the same probes. *)
Definition same_verdicts (d1 d2 : Driver) : Prop :=
  forall i, verify_at d1 i = None <-> verify_at d2 i = None.

(** The statements the helpers send. *)
Definition nodes_query : string := "MATCH (n) RETURN count(n);".
Definition edges_query : string := "MATCH ()-[]->() RETURN count(*);".
Definition delete_query : string := "MATCH (n) DETACH DELETE n;".

(* ================================================================== *)
(** ** Some drivers *)

(** A database that never comes up. *)
Definition refusing : Driver :=
  mkDriver (fun _ => Some "connection refused")
           (fun _ _ => (None, Some "connection refused")).

(** A database that refuses [k] connectivity checks and is up afterwards,
    and that answers every query with [answer]. *)
Definition ready_after (k : nat) (answer : QueryReturn) : Driver :=
  mkDriver (fun i => if (i <? k)%nat then Some "connection refused" else None)
           (fun _ _ => answer).

(** A result with a single row holding a single value. *)
Definition single (v : Value) : QueryReturn :=
  (Some (mkEagerResult ["count"] [Some (mkRecord ["count"] [v])]), None).

(** A result without rows. *)
Definition no_rows : QueryReturn := (Some (mkEagerResult ["count"] []), None).



(* ================================================================== *)
(** ** The whole program

    [main] and [insertData] make calls the readiness wait does not make:
    they create and close the driver and run statements on a session.  The
    history of the whole program holds these next to the calls above. *)

Inductive Call : Type :=
| Base (e : Event)
| CallNewDriver (target : string)
| CallSessionRun (statement : string)
| CallDriverClose.

(** Oldest call first. *)
Definition Trace : Type := list Call.

Definition base_events (c : Call) : list Event :=
  match c with Base e => [e] | _ => [] end.

(** The calls of a history that the functions above see. *)
Definition base_of (t : Trace) : World := flat_map base_events t.

Definition is_run (c : Call) : bool :=
  match c with CallSessionRun _ => true | _ => false end.

(** How many [session.Run] calls the history holds. *)
Definition runs (t : Trace) : nat := List.length (filter is_run t).

(** The rest of the outside: what [neo4j.NewDriverWithContext] returns for
    a target, and the error of the n-th [session.Run] for a statement. *)
Record Env : Type := mkEnv {
  new_driver : string -> option Driver * option error;
  run_at : nat -> string -> option error
}.

Definition P (A : Type) : Type := Trace -> Outcome A * Trace.

Definition pret {A} (a : A) : P A := fun t => (Returns a, t).

Definition pbind {A B} (c : P A) (k : A -> P B) : P B :=
  fun t =>
    match c t with
    | (Returns a, t') => k a t'
    | (Exits s m, t') => (Exits s m, t')
    | (Panics p, t') => (Panics p, t')
    | (Unfinished, t') => (Unfinished, t')
    end.

(** A function of the sections above, run inside the whole program: it
    sees the calls of its own kind made so far, and what it adds to them
    is added to the history. *)
Definition lift {A} (c : M A) : P A :=
  fun t =>
    let (r, w') := c (base_of t) in
    (r, t ++ map Base (events_since (base_of t) w')).

(** [defer cleanup] around a function body, as [defer] above. *)
Definition pdefer {A} (cleanup : P unit) (body : P A) : P A :=
  fun t =>
    match body t with
    | (Returns a, t') =>
        match cleanup t' with
        | (Returns _, t'') => (Returns a, t'')
        | (Exits s m, t'') => (Exits s m, t'')
        | (Panics p, t'') => (Panics p, t'')
        | (Unfinished, t'') => (Unfinished, t'')
        end
    | (Panics p, t') =>
        match cleanup t' with
        | (Returns _, t'') => (Panics p, t'')
        | (Exits s m, t'') => (Exits s m, t'')
        | (Panics p', t'') => (Panics p', t'')
        | (Unfinished, t'') => (Unfinished, t'')
        end
    | other => other
    end.

(** [neo4j.NewDriverWithContext(target, auth)] *)
Definition NewDriverWithContext (env : Env) (target : string)
  : P (option Driver * option error) :=
  fun t => (Returns (new_driver env target), t ++ [CallNewDriver target]).

(** [driver.Close(ctx)]; its result is dropped. *)
Definition DriverClose : P unit :=
  fun t => (Returns tt, t ++ [CallDriverClose]).

(** [session.Run(ctx, statement, nil)]; only its error is looked at, the
    result is dropped unread. *)
Definition SessionRun (env : Env) (statement : string) : P (option error) :=
  fun t => (Returns (run_at env (runs t) statement),
            t ++ [CallSessionRun statement]).

(** [for _, a := range l { body }]; [None] when the loop runs out or is
    left by [break], [Some r] for a [return r] from inside. *)
Fixpoint for_range {A R} (l : list A) (body : A -> P (Flow R)) : P (option R) :=
  match l with
  | [] => pret None
  | a :: l' =>
      pbind (body a) (fun f =>
        match f with
        | Continue => for_range l' body
        | Break => pret None
        | Return r => pret (Some r)
        end)
  end.

Declare Scope prog_scope.
Delimit Scope prog_scope with prog.
Notation "x <- c ;; k" := (pbind c (fun x => k))
  (at level 61, c at next level, right associativity) : prog_scope.
Notation "' pat <- c ;; k" := (pbind c (fun x => match x with pat => k end))
  (at level 61, pat pattern, c at next level, right associativity) : prog_scope.
Notation "c ;; k" := (pbind c (fun _ => k))
  (at level 61, right associativity) : prog_scope.

(** The statement lists of [insertData] (lines 69-100). *)
Definition indexes : list string := [
  "CREATE INDEX ON :Developer(id);";
  "CREATE INDEX ON :Technology(id);";
  "CREATE INDEX ON :Developer(name);";
  "CREATE INDEX ON :Technology(name);"
].

Definition developer_nodes : list string := [
  "CREATE (n:Developer {id: 1, name:'Andy'});";
  "CREATE (n:Developer {id: 2, name:'John'});";
  "CREATE (n:Developer {id: 3, name:'Michael'});"
].

Definition technology_nodes : list string := [
  "CREATE (n:Technology {id: 1, name:'Memgraph', description: 'Fastest graph DB in the world!', createdAt: Date()})";
  "CREATE (n:Technology {id: 2, name:'Go', description: 'Go programming language ', createdAt: Date()})";
  "CREATE (n:Technology {id: 3, name:'Docker', description: 'Docker containerization engine', createdAt: Date()})";
  "CREATE (n:Technology {id: 4, name:'Kubernetes', description: 'Kubernetes container orchestration engine', createdAt: Date()})";
  "CREATE (n:Technology {id: 5, name:'Python', description: 'Python programming language', createdAt: Date()})"
].

Definition relationships : list string := [
  "MATCH (a:Developer {id: 1}),(b:Technology {id: 1}) CREATE (a)-[r:LOVES]->(b);";
  "MATCH (a:Developer {id: 2}),(b:Technology {id: 3}) CREATE (a)-[r:LOVES]->(b);";
  "MATCH (a:Developer {id: 3}),(b:Technology {id: 1}) CREATE (a)-[r:LOVES]->(b);";
  "MATCH (a:Developer {id: 1}),(b:Technology {id: 5}) CREATE (a)-[r:LOVES]->(b);";
  "MATCH (a:Developer {id: 2}),(b:Technology {id: 2}) CREATE (a)-[r:LOVES]->(b);";
  "MATCH (a:Developer {id: 3}),(b:Technology {id: 4}) CREATE (a)-[r:LOVES]->(b);"
].

(** The body of the first loop of [insertData] (lines 108-111). *)
Definition run_or_return (env : Env) (index : string) : P (Flow (option error)) :=
  (err <- SessionRun env index ;;
   match err with
   | Some e => pret (Return (Some e))
   | None => pret Continue
   end)%prog.

(** The body of its other three loops (lines 116-119, 124-127, 132-135). *)
Definition execute_or_return (d : Driver) (statement : string)
  : P (Flow (option error)) :=
  (' (_, err) <- lift (ExecuteQuery d statement) ;;
   match err with
   | Some e => pret (Return (Some e))
   | None => pret Continue
   end)%prog.

(** [func insertData(ctx, driver) error] *)
Definition insertData (env : Env) (d : Driver) : P (option error) :=
  (lift NewSession ;;
   pdefer (lift SessionClose) (
     r <- for_range indexes (run_or_return env) ;;
     match r with Some e => pret e | None =>
     r <- for_range developer_nodes (execute_or_return d) ;;
     match r with Some e => pret e | None =>
     r <- for_range technology_nodes (execute_or_return d) ;;
     match r with Some e => pret e | None =>
     r <- for_range relationships (execute_or_return d) ;;
     match r with Some e => pret e | None =>
     lift (slog_Info "****** All data inserted *******" []) ;;
     pret None
     end end end end))%prog.

(** [func main()].  The driver is used through its methods, so a nil
    driver without an error panics at its first use. *)
Definition main (fuel : nat) (env : Env) : P unit :=
  (let host := Sprintf "bolt://%s:%s" [ArgString "localhost"; ArgString "7687"] in
   ' (driver, err) <- NewDriverWithContext env host ;;
   match err with
   | Some e => lift (log_Fatalf "Could not create driver: %s" [ArgString e])
   | None =>
   driver <- lift (deref driver) ;;
   pdefer DriverClose (
     err <- lift (waitFor fuel driver) ;;
     match err with
     | Some e => lift (log_Fatalf "Could not connect to memgraph: %s" [ArgString e])
     | None =>
     err <- insertData env driver ;;
     match err with
     | Some e => lift (log_Fatalf "Could not insert data into memgraph: %s" [ArgString e])
     | None =>
     ' (nodes, err) <- lift (countAllNodes driver) ;;
     match err with
     | Some e => lift (log_Fatalf "Could not count nodes: %s" [ArgString e])
     | None =>
     lift (slog_Info "Total nodes in the graph" [("nodes", nodes)]) ;;
     ' (edges, err) <- lift (countAllEdges driver) ;;
     match err with
     | Some e => lift (log_Fatalf "Could not count edges: %s" [ArgString e])
     | None =>
     lift (slog_Info "Total edges in the graph" [("edges", edges)]) ;;
     pret tt
     end end end end)
   end)%prog.

(* ================================================================== *)
(** ** Reading the history of the whole program *)

(** A statement of [insertData] with the call that carries it. *)
Inductive Statement : Type :=
| ViaRun (statement : string)
| ViaExecuteQuery (statement : string).

Definition statement_call (s : Statement) : Call :=
  match s with
  | ViaRun q => CallSessionRun q
  | ViaExecuteQuery q => Base (EvExecuteQuery q)
  end.

(** All statements of [insertData], in the order of its four loops. *)
Definition insert_statements : list Statement :=
  map ViaRun indexes
    ++ map ViaExecuteQuery (developer_nodes ++ technology_nodes ++ relationships).

(** The errors the calls for a list of statements return, the first
    being [session.Run] number [nr] or query number [nq]. *)
Fixpoint answers (env : Env) (d : Driver) (nr nq : nat) (l : list Statement)
  : list (option error) :=
  match l with
  | [] => []
  | ViaRun q :: l' => run_at env nr q :: answers env d (S nr) nq l'
  | ViaExecuteQuery q :: l' =>
      snd (query_at d nq q) :: answers env d nr (S nq) l'
  end.

(** The error the call for one statement returns when sent next. *)
Definition answer (env : Env) (d : Driver) (t : Trace) (s : Statement)
  : option error :=
  match s with
  | ViaRun q => run_at env (runs t) q
  | ViaExecuteQuery q => snd (query_at d (queries (base_of t)) q)
  end.

(** Sending statements one after the other up to the first error. *)
Fixpoint send_all (env : Env) (d : Driver) (l : list Statement) (t : Trace)
  : option error * Trace :=
  match l with
  | [] => (None, t)
  | s :: l' =>
      match answer env d t s with
      | Some e => (Some e, t ++ [statement_call s])
      | None => send_all env d l' (t ++ [statement_call s])
      end
  end.

(** The call for statement [i] is the first one that returns an error,
    and returns [e]. *)
Definition first_failure (a : list (option error)) (i : nat) (e : error) : Prop :=
  nth_error a i = Some (Some e)
  /\ forall j, (j < i)%nat -> nth_error a j = Some None.

Definition all_insert_log : Call :=
  Base (EvSlog LevelInfo "****** All data inserted *******" []).

(** How often the history closes the driver. *)
Fixpoint driver_closes (t : Trace) : nat :=
  match t with
  | [] => 0
  | CallDriverClose :: t' => S (driver_closes t')
  | _ :: t' => driver_closes t'
  end.

(** A probe, a log line or a sleep. *)
Definition waits_only (e : Event) : bool :=
  is_probe e || is_slog e || is_sleep e.

(** The total time slept in a stretch of history. *)
Fixpoint slept (t : list Event) : Z :=
  match t with
  | [] => 0
  | EvSleep d :: t' => d + slept t'
  | _ :: t' => slept t'
  end.

(** What a count helper reads from an answer: the first value of the
    first record, where there is one. *)
Definition first_value (r : QueryReturn) : option Value :=
  match fst r with
  | Some res =>
      match Records res with
      | Some row :: _ =>
          match Values row with
          | v :: _ => Some v
          | [] => None
          end
      | _ => None
      end
  | None => None
  end.

(** The database answers one of the first 101 probes: [k] failures, then
    a success. *)
Definition ready_at (d : Driver) (c k : nat) : Prop :=
  (k <= 100)%nat /\ fails_from d c k /\ verify_at d (c + k) = None.

(** What [waitFor] writes when the database is ready at probe [k]. *)
Definition waitFor_connected (d : Driver) (c k : nat) : list Event :=
  waitFor_failures d c 0 k ++ [EvVerifyConnectivity None; connected_log].

Definition host : string := "bolt://localhost:7687".

(** An outside that accepts every statement. *)
Definition willing : Env :=
  mkEnv (fun _ => (Some (ready_after 0 (single (VInt64 8))), None))
        (fun _ _ => None).

(** An outside whose [session.Run] number [n] returns an error. *)
Definition failing_run (n : nat) : Env :=
  mkEnv (fun _ => (Some (ready_after 0 (single (VInt64 8))), None))
        (fun i _ => if (i =? n)%nat then Some "index exists" else None).

(** An outside whose database never comes up. *)
Definition unreachable : Env :=
  mkEnv (fun _ => (Some refusing, None)) (fun _ _ => None).

(** An outside that accepts every statement and answers the count
    queries without rows. *)
Definition empty_handed : Env :=
  mkEnv (fun _ => (Some (ready_after 0 no_rows), None)) (fun _ _ => None).

(* ================================================================== *)
(** ** Basic facts *)

Arguments int_incr : simpl never.

Lemma int_incr_small (a : Z) :
  int_min <= a < int_max -> int_incr a = a + 1.
Proof.
  unfold int_min, int_max, int_incr, int_wrap. intros H.
  rewrite Z.mod_small by lia. lia.
Qed.

Lemma waitFor_timeout_101 :
  waitFor_timeout 101
  = "could not connect to memgraph even though it took 101 attemps".
Proof. reflexivity. Qed.

Lemma append_empty (s : string) : (s ++ "")%string = s.
Proof. induction s as [|c s IH]; cbn; [reflexivity|now rewrite IH]. Qed.

Lemma connect_fatal_text (e : error) :
  Sprintf "Could not connect to memgraph: %s" [ArgString e]
  = ("Could not connect to memgraph: " ++ e)%string.
Proof. cbn. now rewrite append_empty. Qed.

Lemma delete_fatal_text (e : error) :
  Sprintf "Could not delete everything: %s" [ArgString e]
  = ("Could not delete everything: " ++ e)%string.
Proof. cbn. now rewrite append_empty. Qed.

(** From here on a formatted text is taken as a whole. *)
Opaque Sprintf.

Lemma probes_app (w t : World) : probes (w ++ t) = (probes w + probes t)%nat.
Proof. unfold probes. now rewrite filter_app, length_app. Qed.

Lemma events_since_app (w t : World) : events_since w (w ++ t) = t.
Proof.
  unfold events_since. rewrite skipn_app, skipn_all, Nat.sub_diag. reflexivity.
Qed.

Lemma fails_from_S (d : Driver) (c n : nat) :
  fails_from d c (S n) ->
  verify_at d c <> None /\ fails_from d (S c) n.
Proof.
  intros H. split.
  - specialize (H 0%nat). rewrite Nat.add_0_r in H. apply H. lia.
  - intros i Hi. replace (S c + i)%nat with (c + S i)%nat by lia.
    apply H. lia.
Qed.

Lemma fails_from_le (d : Driver) (c n m : nat) :
  (m <= n)%nat -> fails_from d c n -> fails_from d c m.
Proof. intros Hm H i Hi. apply H. lia. Qed.

(** Either the first [n] probes all fail, or there is a first success. *)
Lemma first_success (d : Driver) (c n : nat) :
  fails_from d c n \/
  exists k, (k < n)%nat /\ fails_from d c k /\ verify_at d (c + k) = None.
Proof.
  induction n as [|n IH].
  - left. intros i Hi. lia.
  - destruct IH as [IH | (k & Hk & Hf & Hs)].
    + destruct (verify_at d (c + n)) as [e|] eqn:E.
      * left. intros i Hi. destruct (Nat.eq_dec i n) as [->|Hne].
        -- rewrite E. discriminate.
        -- apply IH. lia.
      * right. exists n. auto.
    + right. exists k. auto.
Qed.

(* ================================================================== *)
(** ** One pass of [waitFor] *)

Section WaitForPass.
Variable d : Driver.

Lemma waitFor_body_retry (a : Z) (w : World) :
  verify_at d (probes w) <> None -> int_incr a <= 100 ->
  waitFor_body d a w
  = (Returns (int_incr a, Continue),
     w ++ [EvVerifyConnectivity (verify_at d (probes w));
           attempt_log (int_incr a); EvSleep Second]).
Proof.
  intros Hv Ha. unfold waitFor_body, bind, VerifyConnectivity.
  destruct (verify_at d (probes w)) as [e|]; [|congruence].
  cbn. destruct (Z.ltb_spec 100 (int_incr a)); [lia|].
  unfold ret. f_equal. rewrite <- !app_assoc. reflexivity.
Qed.

Lemma waitFor_body_give_up (a : Z) (w : World) :
  verify_at d (probes w) <> None -> 100 < int_incr a ->
  waitFor_body d a w
  = (Returns (int_incr a, Return (Some (waitFor_timeout (int_incr a)))),
     w ++ [EvVerifyConnectivity (verify_at d (probes w));
           attempt_log (int_incr a)]).
Proof.
  intros Hv Ha. unfold waitFor_body, bind, VerifyConnectivity.
  destruct (verify_at d (probes w)) as [e|]; [|congruence].
  cbn. destruct (Z.ltb_spec 100 (int_incr a)); [|lia].
  unfold ret. f_equal. rewrite <- app_assoc. reflexivity.
Qed.

Lemma waitFor_body_connected (a : Z) (w : World) :
  verify_at d (probes w) = None ->
  waitFor_body d a w
  = (Returns (int_incr a, Break),
     w ++ [EvVerifyConnectivity None; connected_log]).
Proof.
  intros Hv. unfold waitFor_body, bind, VerifyConnectivity.
  rewrite Hv. cbn. unfold ret. f_equal. rewrite <- app_assoc. reflexivity.
Qed.

(** [k] failed passes in a row, none of them the last allowed one. *)
Lemma waitFor_loop_failures (k fuel : nat) (a : Z) (w : World) :
  0 <= a -> a + Z.of_nat k <= 100 ->
  fails_from d (probes w) k ->
  for_loop (k + fuel) (waitFor_body d) a w
  = for_loop fuel (waitFor_body d) (a + Z.of_nat k)
      (w ++ waitFor_failures d (probes w) a k).
Proof.
  revert a w. induction k as [|k IH]; intros a w Ha Hk Hf.
  - cbn. now rewrite Z.add_0_r, app_nil_r.
  - apply fails_from_S in Hf. destruct Hf as [Hv Hf].
    assert (E : int_incr a = a + 1)
      by (apply int_incr_small; unfold int_min, int_max; lia).
    assert (P : probes (w ++ [EvVerifyConnectivity (verify_at d (probes w));
                              attempt_log (a + 1); EvSleep Second])
                = S (probes w))
      by (rewrite probes_app; cbn; lia).
    change (S k + fuel)%nat with (S (k + fuel)).
    cbn [for_loop]. unfold bind at 1.
    rewrite waitFor_body_retry by (rewrite ?E; lia || assumption).
    rewrite E, IH by (rewrite ?P; lia || assumption).
    rewrite P, <- app_assoc. cbn [waitFor_failures app].
    replace (a + 1 + Z.of_nat k) with (a + Z.of_nat (S k)) by lia.
    reflexivity.
Qed.

End WaitForPass.

(* ================================================================== *)
(** ** Whole runs of [waitFor] *)

Section WaitForRuns.
Variable d : Driver.

Lemma probes_waitFor_failures (c : nat) (a : Z) (k : nat) :
  probes (waitFor_failures d c a k) = k.
Proof.
  revert c a. induction k as [|k IH]; intros c a; [reflexivity|].
  cbn [waitFor_failures].
  change (probes (?e :: attempt_log ?n :: EvSleep ?s :: ?t))
    with (S (probes t)).
  now rewrite IH.
Qed.

(** [k <= 100] failures and then a success: the loop is left by [break]. *)
Lemma waitFor_connects (fuel : nat) (w : World) (k : nat) :
  (k <= 100)%nat -> (k < fuel)%nat ->
  fails_from d (probes w) k ->
  verify_at d (probes w + k) = None ->
  waitFor fuel d w
  = (Returns None,
     w ++ waitFor_failures d (probes w) 0 k
       ++ [EvVerifyConnectivity None; connected_log]).
Proof.
  intros Hk Hfuel Hf Hs.
  replace fuel with (k + S (fuel - S k))%nat by lia.
  unfold waitFor, bind at 1.
  rewrite waitFor_loop_failures by (lia || assumption).
  cbn [for_loop]. unfold bind at 1.
  rewrite waitFor_body_connected
    by (now rewrite probes_app, probes_waitFor_failures).
  cbn. now rewrite <- app_assoc.
Qed.

(** 101 failures: the 101st pass finds [attemps > 100] and returns. *)
Lemma waitFor_gives_up (fuel : nat) (w : World) :
  (101 <= fuel)%nat ->
  fails_from d (probes w) 101 ->
  waitFor fuel d w
  = (Returns (Some (waitFor_timeout 101)),
     w ++ waitFor_failures d (probes w) 0 100
       ++ [EvVerifyConnectivity (verify_at d (probes w + 100));
           attempt_log 101]).
Proof.
  intros Hfuel Hf.
  replace fuel with (100 + S (fuel - 101))%nat by lia.
  unfold waitFor, bind at 1.
  rewrite waitFor_loop_failures
    by (lia || (apply fails_from_le with (n := 101%nat); [lia|assumption])).
  cbn [for_loop]. unfold bind at 1.
  assert (P : probes (w ++ waitFor_failures d (probes w) 0 100)
              = (probes w + 100)%nat)
    by now rewrite probes_app, probes_waitFor_failures.
  assert (E : int_incr (0 + Z.of_nat 100) = 101) by reflexivity.
  rewrite waitFor_body_give_up; rewrite ?P, ?E; try lia.
  - cbn. now rewrite <- app_assoc.
  - apply Hf. lia.
Qed.

(** Every run with enough fuel is one of the two. *)
Lemma waitFor_run (fuel : nat) (w : World) :
  (101 <= fuel)%nat ->
  (exists k, (k <= 100)%nat /\ fails_from d (probes w) k /\
             verify_at d (probes w + k) = None /\
             waitFor fuel d w
             = (Returns None,
                w ++ waitFor_failures d (probes w) 0 k
                  ++ [EvVerifyConnectivity None; connected_log]))
  \/
  (fails_from d (probes w) 101 /\
   waitFor fuel d w
   = (Returns (Some (waitFor_timeout 101)),
      w ++ waitFor_failures d (probes w) 0 100
        ++ [EvVerifyConnectivity (verify_at d (probes w + 100));
            attempt_log 101])).
Proof.
  intros Hfuel.
  destruct (first_success d (probes w) 101) as [Hf | (k & Hk & Hf & Hs)].
  - right. split; [assumption|]. now apply waitFor_gives_up.
  - left. exists k. repeat split; try assumption; try lia.
    apply waitFor_connects; try assumption; lia.
Qed.

(** Whatever the fuel, a [break] is the only way to a [nil] result, and
    it follows a successful probe. *)
Lemma waitFor_loop_result (fuel : nat) (a : Z) (w : World) l r w' :
  for_loop fuel (waitFor_body d) a w = (Returns (l, r), w') ->
  (r = None /\
   exists t, w' = w ++ t ++ [EvVerifyConnectivity None; connected_log])
  \/ (exists m, r = Some (Some m)).
Proof.
  revert a w. induction fuel as [|fuel IH]; intros a w H; [discriminate|].
  cbn [for_loop] in H. unfold bind at 1 in H.
  destruct (verify_at d (probes w)) as [e|] eqn:E.
  - assert (Hv : verify_at d (probes w) <> None) by (rewrite E; discriminate).
    destruct (Z.ltb_spec 100 (int_incr a)) as [Hgt|Hle].
    + rewrite waitFor_body_give_up in H by assumption. cbn in H.
      inversion H; subst. right. eauto.
    + rewrite waitFor_body_retry in H by assumption.
      apply IH in H. destruct H as [[-> [t ->]] | H]; [left|now right].
      split; [reflexivity|]. rewrite <- app_assoc.
      now exists ([EvVerifyConnectivity (verify_at d (probes w));
                   attempt_log (int_incr a); EvSleep Second] ++ t).
  - rewrite waitFor_body_connected in H by assumption. cbn in H.
    inversion H; subst. left. split; [reflexivity|]. now exists [].
Qed.

Lemma waitFor_nil_result (fuel : nat) (w w' : World) :
  waitFor fuel d w = (Returns None, w') ->
  exists t, w' = w ++ t ++ [EvVerifyConnectivity None; connected_log].
Proof.
  unfold waitFor, bind at 1. intros H.
  destruct (for_loop fuel (waitFor_body d) 0 w) as [[[l r]| | |] w1] eqn:E;
    try discriminate.
  apply waitFor_loop_result in E. destruct E as [[-> Ht] | [m ->]].
  - cbn in H. inversion H; subst. exact Ht.
  - discriminate.
Qed.

End WaitForRuns.

(* ================================================================== *)
(** ** What the failed passes of [waitFor] leave in the history *)

Section WaitForHistory.
Variable d : Driver.

Lemma failed_probes_app (t u : list Event) :
  failed_probes (t ++ u) = (failed_probes t + failed_probes u)%nat.
Proof. unfold failed_probes. now rewrite filter_app, length_app. Qed.

Lemma failed_probes_waitFor_failures (c : nat) (a : Z) (k : nat) :
  fails_from d c k -> failed_probes (waitFor_failures d c a k) = k.
Proof.
  revert c a. induction k as [|k IH]; intros c a Hf; [reflexivity|].
  apply fails_from_S in Hf. destruct Hf as [Hv Hf].
  cbn [waitFor_failures]. unfold failed_probes in *. cbn [filter].
  destruct (verify_at d c); [|congruence].
  cbn. now rewrite IH.
Qed.

Lemma error_logs_waitFor_failures (c : nat) (a : Z) (k : nat) :
  filter is_error_log (waitFor_failures d c a k)
  = map (fun n => attempt_log (a + Z.of_nat n)) (seq 1 k).
Proof.
  revert c a. induction k as [|k IH]; intros c a; [reflexivity|].
  cbn [waitFor_failures filter is_error_log attempt_log seq map].
  rewrite IH, <- (seq_shift k 1), map_map. f_equal.
  apply map_ext. intros n. f_equal. lia.
Qed.

Lemma info_logs_waitFor_failures (c : nat) (a : Z) (k : nat) :
  filter is_info_log (waitFor_failures d c a k) = [].
Proof.
  revert c a. induction k as [|k IH]; intros c a; [reflexivity|].
  cbn [waitFor_failures filter is_info_log attempt_log]. apply IH.
Qed.

(** The sleeps of [S k] failed passes: none before the first probe, one
    of a second after each probe. *)
Lemma sleeps_waitFor_failures (c : nat) (a : Z) (k : nat) cur t :
  sleeps_around_probes cur (waitFor_failures d c a (S k) ++ t)
  = cur :: repeat [Second] k ++ sleeps_around_probes [Second] t.
Proof.
  revert c a cur. induction k as [|k IH]; intros c a cur.
  - reflexivity.
  - change (waitFor_failures d c a (S (S k)))
      with (EvVerifyConnectivity (verify_at d c) :: attempt_log (a + 1)
              :: EvSleep Second :: waitFor_failures d (S c) (a + 1) (S k)).
    rewrite <- !app_comm_cons.
    change (cur :: sleeps_around_probes [Second]
                     (waitFor_failures d (S c) (a + 1) (S k) ++ t)
            = cur :: repeat [Second] (S k)
                  ++ sleeps_around_probes [Second] t).
    now rewrite IH.
Qed.

Lemma erase_slog_waitFor_failures (c : nat) (a : Z) (k : nat) :
  erase_slog (waitFor_failures d c a k) = TestMain_failures d c k.
Proof.
  revert c a. induction k as [|k IH]; intros c a; [reflexivity|].
  cbn [waitFor_failures TestMain_failures]. unfold erase_slog in *.
  cbn. now rewrite IH.
Qed.


Lemma last_probe_app (t u : list Event) :
  last_probe (t ++ u)
  = match last_probe u with Some r => Some r | None => last_probe t end.
Proof.
  induction t as [|e t IH]; cbn.
  - now destruct (last_probe u).
  - rewrite IH. now destruct (last_probe u).
Qed.

Lemma erase_slog_app (t u : list Event) :
  erase_slog (t ++ u) = erase_slog t ++ erase_slog u.
Proof. apply filter_app. Qed.

Lemma probes_erase_slog (t : list Event) : probes (erase_slog t) = probes t.
Proof.
  unfold probes, erase_slog.
  induction t as [|e t IH]; [reflexivity|]. destruct e; cbn; now rewrite ?IH.
Qed.

End WaitForHistory.

(* ================================================================== *)
(** ** The readiness loop of [TestMain] *)

Section TestMainWait.
Variable d : Driver.

Lemma TestMain_wait_body_retry (l : TestMainLocals) (w : World) :
  verify_at d (probes w) <> None -> int_incr (attempts l) <= 10 ->
  TestMain_wait_body d l w
  = (Returns (mkLocals (int_incr (attempts l)) (verify_at d (probes w)),
              Continue),
     w ++ [EvVerifyConnectivity (verify_at d (probes w)); EvSleep Second]).
Proof.
  intros Hv Ha. unfold TestMain_wait_body, bind, VerifyConnectivity.
  destruct (verify_at d (probes w)) as [e|]; [|congruence].
  cbn. destruct (Z.ltb_spec 10 (int_incr (attempts l))); [lia|].
  unfold ret. f_equal. rewrite <- app_assoc. reflexivity.
Qed.

Lemma TestMain_wait_body_fatal (l : TestMainLocals) (w : World) (e : error) :
  verify_at d (probes w) = Some e -> 10 < int_incr (attempts l) ->
  TestMain_wait_body d l w
  = (Exits 1 ("Could not connect to memgraph: " ++ e)%string,
     w ++ [EvVerifyConnectivity (Some e)]).
Proof.
  intros Hv Ha. unfold TestMain_wait_body, bind, VerifyConnectivity.
  rewrite Hv. cbn. destruct (Z.ltb_spec 10 (int_incr (attempts l))); [|lia].
  unfold log_Fatalf. now rewrite connect_fatal_text.
Qed.

Lemma TestMain_wait_body_ready (l : TestMainLocals) (w : World) :
  verify_at d (probes w) = None ->
  TestMain_wait_body d l w
  = (Returns (mkLocals (int_incr (attempts l)) None, Break),
     w ++ [EvVerifyConnectivity None]).
Proof.
  intros Hv. unfold TestMain_wait_body, bind, VerifyConnectivity.
  rewrite Hv. reflexivity.
Qed.

Lemma probes_TestMain_failures (c k : nat) :
  probes (TestMain_failures d c k) = k.
Proof.
  revert c. induction k as [|k IH]; intros c; [reflexivity|].
  cbn [TestMain_failures].
  change (probes (?e :: EvSleep ?s :: ?t)) with (S (probes t)).
  now rewrite IH.
Qed.

Lemma slog_TestMain_failures (c k : nat) :
  filter is_slog (TestMain_failures d c k) = [].
Proof.
  revert c. induction k as [|k IH]; intros c; [reflexivity|].
  cbn [TestMain_failures filter is_slog]. apply IH.
Qed.

Lemma sleeps_TestMain_failures (c k : nat) cur t :
  sleeps_around_probes cur (TestMain_failures d c (S k) ++ t)
  = cur :: repeat [Second] k ++ sleeps_around_probes [Second] t.
Proof.
  revert c cur. induction k as [|k IH]; intros c cur.
  - reflexivity.
  - change (TestMain_failures d c (S (S k)))
      with (EvVerifyConnectivity (verify_at d c) :: EvSleep Second
              :: TestMain_failures d (S c) (S k)).
    rewrite <- !app_comm_cons.
    change (cur :: sleeps_around_probes [Second]
                     (TestMain_failures d (S c) (S k) ++ t)
            = cur :: repeat [Second] (S k)
                  ++ sleeps_around_probes [Second] t).
    now rewrite IH.
Qed.

Lemma TestMain_wait_loop_failures (k fuel : nat) (l : TestMainLocals)
  (w : World) :
  0 <= attempts l -> attempts l + Z.of_nat k <= 10 ->
  fails_from d (probes w) k ->
  exists l', attempts l' = attempts l + Z.of_nat k /\
    for_loop (k + fuel) (TestMain_wait_body d) l w
    = for_loop fuel (TestMain_wait_body d) l'
        (w ++ TestMain_failures d (probes w) k).
Proof.
  revert l w. induction k as [|k IH]; intros l w Ha Hk Hf.
  - exists l. cbn. rewrite app_nil_r. split; [lia|reflexivity].
  - apply fails_from_S in Hf. destruct Hf as [Hv Hf].
    assert (E : int_incr (attempts l) = attempts l + 1)
      by (apply int_incr_small; unfold int_min, int_max; lia).
    assert (P : probes (w ++ [EvVerifyConnectivity (verify_at d (probes w));
                              EvSleep Second])
                = S (probes w))
      by (rewrite probes_app; cbn; lia).
    destruct (IH (mkLocals (attempts l + 1) (verify_at d (probes w)))
                 (w ++ [EvVerifyConnectivity (verify_at d (probes w));
                        EvSleep Second]))
      as (l' & Hl' & Hrun); cbn [attempts]; rewrite ?P; try lia; try assumption.
    exists l'. split; [cbn [attempts] in Hl'; lia|].
    change (S k + fuel)%nat with (S (k + fuel)).
    cbn [for_loop]. unfold bind at 1.
    rewrite TestMain_wait_body_retry by (rewrite ?E; lia || assumption).
    rewrite E, Hrun, P, <- app_assoc. reflexivity.
Qed.

Lemma TestMain_wait_ready (fuel : nat) (w : World) (k : nat) :
  (k <= 10)%nat -> (k < fuel)%nat ->
  fails_from d (probes w) k ->
  verify_at d (probes w + k) = None ->
  TestMain_wait fuel d w
  = (Returns tt,
     w ++ TestMain_failures d (probes w) k ++ [EvVerifyConnectivity None]).
Proof.
  intros Hk Hfuel Hf Hs.
  replace fuel with (k + S (fuel - S k))%nat by lia.
  destruct (TestMain_wait_loop_failures k (S (fuel - S k)) (mkLocals 0 None) w)
    as (l' & _ & Hrun); cbn [attempts]; try lia; try assumption.
  unfold TestMain_wait, bind at 1. rewrite Hrun.
  cbn [for_loop]. unfold bind at 1.
  rewrite TestMain_wait_body_ready
    by (now rewrite probes_app, probes_TestMain_failures).
  cbn. now rewrite <- app_assoc.
Qed.

Lemma TestMain_wait_fatal (fuel : nat) (w : World) (e : error) :
  (11 <= fuel)%nat ->
  fails_from d (probes w) 10 ->
  verify_at d (probes w + 10) = Some e ->
  TestMain_wait fuel d w
  = (Exits 1 ("Could not connect to memgraph: " ++ e)%string,
     w ++ TestMain_failures d (probes w) 10 ++ [EvVerifyConnectivity (Some e)]).
Proof.
  intros Hfuel Hf He.
  replace fuel with (10 + S (fuel - 11))%nat by lia.
  destruct (TestMain_wait_loop_failures 10 (S (fuel - 11)) (mkLocals 0 None) w)
    as (l' & Hl' & Hrun); cbn [attempts]; try lia; try assumption.
  cbn [attempts] in Hl'.
  unfold TestMain_wait, bind at 1. rewrite Hrun.
  cbn [for_loop]. unfold bind at 1.
  rewrite TestMain_wait_body_fatal with (e := e).
  - now rewrite <- app_assoc.
  - now rewrite probes_app, probes_TestMain_failures.
  - rewrite Hl'. reflexivity.
Qed.

Lemma TestMain_wait_run (fuel : nat) (w : World) :
  (11 <= fuel)%nat ->
  (exists k, (k <= 10)%nat /\ fails_from d (probes w) k /\
             verify_at d (probes w + k) = None /\
             TestMain_wait fuel d w
             = (Returns tt,
                w ++ TestMain_failures d (probes w) k
                  ++ [EvVerifyConnectivity None]))
  \/
  (exists e, fails_from d (probes w) 11 /\
             verify_at d (probes w + 10) = Some e /\
             TestMain_wait fuel d w
             = (Exits 1 ("Could not connect to memgraph: " ++ e)%string,
                w ++ TestMain_failures d (probes w) 10
                  ++ [EvVerifyConnectivity (Some e)])).
Proof.
  intros Hfuel.
  destruct (first_success d (probes w) 11) as [Hf | (k & Hk & Hf & Hs)].
  - right. destruct (verify_at d (probes w + 10)) as [e|] eqn:E.
    + exists e. repeat split; try assumption.
      apply TestMain_wait_fatal; try assumption.
      apply fails_from_le with (n := 11%nat); [lia|assumption].
    + exfalso. apply (Hf 10%nat); [lia|assumption].
  - left. exists k. repeat split; try assumption; try lia.
    apply TestMain_wait_ready; try assumption; lia.
Qed.

End TestMainWait.

(* ================================================================== *)
(** ** The readiness wait of [main]: properties *)

Lemma probes_connect_run (d : Driver) (c k : nat) (r : option error) (u : list Event) :
  probes u = 0%nat ->
  probes (waitFor_failures d c 0 k ++ EvVerifyConnectivity r :: u) = S k.
Proof.
  intros Hu. rewrite probes_app, probes_waitFor_failures.
  change (probes (EvVerifyConnectivity r :: u)) with (S (probes u)). lia.
Qed.

(** C1: against a probe that always fails, [waitFor] gives up with the
    timeout error after exactly 101 probes: the test is [attemps > 100],
    so the 100th failure is not yet the last. *)
Theorem waitFor_exhaustion (d : Driver) (fuel : nat) (w : World) :
  (forall i, verify_at d i <> None) ->
  (101 <= fuel)%nat ->
  exists w',
    waitFor fuel d w
    = (Returns
         (Some "could not connect to memgraph even though it took 101 attemps"),
       w')
    /\ probes (events_since w w') = 101%nat.
Proof.
  intros Hall Hfuel. eexists. split.
  - rewrite waitFor_gives_up by (assumption || (intros i _; apply Hall)).
    rewrite waitFor_timeout_101. reflexivity.
  - rewrite events_since_app. now apply probes_connect_run.
Qed.

Lemma waitFor_exhaustion_witness :
  exists w',
    waitFor 101 refusing []
    = (Returns
         (Some "could not connect to memgraph even though it took 101 attemps"),
       w')
    /\ probes (events_since [] w') = 101%nat.
Proof.
  apply (waitFor_exhaustion refusing 101 []).
  - intros i. cbn. discriminate.
  - lia.
Defined.

(** C2: when the probe fails [k < 100] times and then succeeds, [waitFor]
    returns [nil] after exactly [k + 1] probes. *)
Theorem waitFor_eventual_success (d : Driver) (fuel : nat) (w : World) (k : nat) :
  (k < 100)%nat ->
  (k < fuel)%nat ->
  fails_from d (probes w) k ->
  verify_at d (probes w + k) = None ->
  exists w',
    waitFor fuel d w = (Returns None, w')
    /\ probes (events_since w w') = S k.
Proof.
  intros Hk Hfuel Hf Hs. eexists. split.
  - apply (waitFor_connects d fuel w k); try assumption. lia.
  - rewrite events_since_app. now apply probes_connect_run.
Qed.

Lemma waitFor_eventual_success_witness :
  exists w',
    waitFor 4 (ready_after 3 no_rows) [] = (Returns None, w')
    /\ probes (events_since [] w') = 4%nat.
Proof.
  apply (waitFor_eventual_success (ready_after 3 no_rows) 4 [] 3).
  - lia.
  - lia.
  - intros i Hi. do 3 (destruct i as [|i]; [cbn; discriminate|]). lia.
  - reflexivity.
Defined.


Lemma same_verdicts_sym (d d' : Driver) :
  same_verdicts d d' -> same_verdicts d' d.
Proof. intros H i. symmetry. apply H. Qed.




(** C4: a [nil] result comes only after a probe that reported success: in
    what the call added to the history, the latest probe is a success. *)
Theorem waitFor_no_premature_success (d : Driver) (fuel : nat) (w w' : World) :
  waitFor fuel d w = (Returns None, w') ->
  last_probe (events_since w w') = Some None.
Proof.
  intros H. apply waitFor_nil_result in H. destruct H as [t ->].
  rewrite events_since_app, last_probe_app. reflexivity.
Qed.

Lemma waitFor_no_premature_success_witness :
  last_probe (events_since [] (snd (waitFor 4 (ready_after 3 no_rows) [])))
  = Some None.
Proof.
  apply (waitFor_no_premature_success (ready_after 3 no_rows) 4 []).
  vm_compute. reflexivity.
Defined.



(* ================================================================== *)
(** ** Delay and log lines *)

Lemma gaps_waitFor_run (d : Driver) (c k : nat) (r : option error) (u : list Event) :
  (forall cur, sleeps_around_probes cur u = [cur]) ->
  sleeps_between_probes (waitFor_failures d c 0 k ++ EvVerifyConnectivity r :: u)
  = repeat [Second] k.
Proof.
  intros Hu. unfold sleeps_between_probes. destruct k as [|k].
  - cbn. rewrite Hu. reflexivity.
  - rewrite sleeps_waitFor_failures. cbn [sleeps_around_probes tl].
    rewrite Hu, removelast_app by discriminate.
    cbn [removelast]. now rewrite <- repeat_cons.
Qed.

Lemma gaps_TestMain_run (d : Driver) (c k : nat) (r : option error) :
  sleeps_between_probes (TestMain_failures d c k ++ [EvVerifyConnectivity r])
  = repeat [Second] k.
Proof.
  unfold sleeps_between_probes. destruct k as [|k].
  - reflexivity.
  - rewrite sleeps_TestMain_failures. cbn [sleeps_around_probes tl].
    rewrite removelast_app by discriminate.
    cbn [removelast]. now rewrite <- repeat_cons.
Qed.

Lemma probes_TestMain_run (d : Driver) (c k : nat) (r : option error) :
  probes (TestMain_failures d c k ++ [EvVerifyConnectivity r]) = S k.
Proof. rewrite probes_app, probes_TestMain_failures. cbn. lia. Qed.

(** C6: [waitFor] gives up exactly when more than 100 probes in a row
    fail, the loop of [TestMain] when more than 10 do; in both, any two
    consecutive probes are separated by one sleep of one second
    (1000000000 ns), so the delay never grows. *)
Theorem poll_schedule (d : Driver) (fuel : nat) (w : World) :
  (101 <= fuel)%nat ->
  let main_run := waitFor fuel d w in
  let test_run := TestMain_wait fuel d w in
  let t := events_since w (snd main_run) in
  let t' := events_since w (snd test_run) in
  ((exists e, fst main_run = Returns (Some e)) <-> fails_from d (probes w) 101)
  /\ ((exists s m, fst test_run = Exits s m) <-> fails_from d (probes w) 11)
  /\ (probes t <= 101)%nat
  /\ (probes t' <= 11)%nat
  /\ sleeps_between_probes t = repeat [1000000000] (probes t - 1)
  /\ sleeps_between_probes t' = repeat [1000000000] (probes t' - 1).
Proof.
  intros Hfuel. cbv zeta.
  assert (Hmain :
    ((exists e, fst (waitFor fuel d w) = Returns (Some e))
       <-> fails_from d (probes w) 101)
    /\ (probes (events_since w (snd (waitFor fuel d w))) <= 101)%nat
    /\ sleeps_between_probes (events_since w (snd (waitFor fuel d w)))
       = repeat [Second]
           (probes (events_since w (snd (waitFor fuel d w))) - 1)).
  { destruct (waitFor_run d fuel w Hfuel)
      as [(k & Hk & Hf & Hs & Hrun) | [Hf Hrun]];
      rewrite Hrun; cbn [fst snd]; rewrite events_since_app.
    - rewrite (probes_connect_run d (probes w) k) by reflexivity.
      rewrite gaps_waitFor_run by reflexivity.
      repeat split; try lia.
      + intros [e He]. discriminate.
      + intros Hall. exfalso. apply (Hall k); [lia|assumption].
      + f_equal. lia.
    - rewrite (probes_connect_run d (probes w) 100) by reflexivity.
      rewrite gaps_waitFor_run by reflexivity.
      repeat split; try lia; try (intros; assumption). eauto. }
  assert (Htest :
    ((exists s m, fst (TestMain_wait fuel d w) = Exits s m)
       <-> fails_from d (probes w) 11)
    /\ (probes (events_since w (snd (TestMain_wait fuel d w))) <= 11)%nat
    /\ sleeps_between_probes (events_since w (snd (TestMain_wait fuel d w)))
       = repeat [Second]
           (probes (events_since w (snd (TestMain_wait fuel d w))) - 1)).
  { destruct (TestMain_wait_run d fuel w)
      as [(k & Hk & Hf & Hs & Hrun) | (e & Hf & He & Hrun)];
      [lia | |]; rewrite Hrun; cbn [fst snd]; rewrite events_since_app,
        probes_TestMain_run, gaps_TestMain_run.
    - repeat split; try lia.
      + intros (s & m & H). discriminate.
      + intros Hall. exfalso. apply (Hall k); [lia|assumption].
      + f_equal. lia.
    - repeat split; try lia; try (intros; assumption). eauto. }
  destruct Hmain as (H1 & H2 & H3). destruct Htest as (H4 & H5 & H6).
  repeat split; try apply H1; try apply H4; assumption.
Qed.

Lemma poll_schedule_witness :
  sleeps_between_probes (events_since [] (snd (waitFor 101 refusing [])))
  = repeat [1000000000] 100
  /\ sleeps_between_probes (events_since [] (snd (TestMain_wait 101 refusing [])))
     = repeat [1000000000] 10.
Proof.
  destruct (poll_schedule refusing 101 [] (le_n 101))
    as (_ & _ & _ & _ & Hmain & Htest).
  split.
  - rewrite Hmain. vm_compute. reflexivity.
  - rewrite Htest. vm_compute. reflexivity.
Defined.

Lemma probes_same_erased (w1 w2 : World) :
  erase_slog w1 = erase_slog w2 -> probes w1 = probes w2.
Proof.
  intros H. rewrite <- (probes_erase_slog w1), H. apply probes_erase_slog.
Qed.

(** C7: [waitFor] writes one error line for each failed probe, carrying
    the attempt numbers 1, 2, ... in order, and one info line exactly when
    it returns [nil].  Log lines feed nothing back: with any other log
    lines in the history it starts from, the call returns the same value
    and does the same probes and sleeps. *)
Theorem waitFor_events (d : Driver) (fuel : nat) (w : World) :
  (101 <= fuel)%nat ->
  let (r, w') := waitFor fuel d w in
  let t := events_since w w' in
  filter is_error_log t
  = map (fun n => attempt_log (Z.of_nat n)) (seq 1 (failed_probes t))
  /\ filter is_info_log t
     = match r with Returns None => [connected_log] | _ => [] end
  /\ (forall w2, erase_slog w2 = erase_slog w ->
        fst (waitFor fuel d w2) = r
        /\ erase_slog (snd (waitFor fuel d w2)) = erase_slog w').
Proof.
  intros Hfuel.
  destruct (waitFor_run d fuel w Hfuel)
    as [(k & Hk & Hf & Hs & Hrun) | [Hf Hrun]];
    rewrite Hrun; cbv beta iota zeta; rewrite events_since_app.
  - rewrite failed_probes_app, failed_probes_waitFor_failures by assumption.
    rewrite !filter_app, error_logs_waitFor_failures, info_logs_waitFor_failures.
    cbn [filter is_error_log is_info_log connected_log failed_probes
         is_failed_probe List.length app].
    rewrite app_nil_r, Nat.add_0_r.
    split; [reflexivity|]. split; [reflexivity|].
    intros w2 Hw2. apply probes_same_erased in Hw2 as Hp.
    rewrite (waitFor_connects d fuel w2 k) by (rewrite ?Hp; lia || assumption).
    cbn [fst snd]. rewrite !erase_slog_app, Hw2, Hp. split; reflexivity.
  - assert (Hlast : verify_at d (probes w + 100) <> None) by (apply Hf; lia).
    rewrite failed_probes_app, failed_probes_waitFor_failures
      by (apply fails_from_le with (n := 101%nat); [lia|assumption]).
    rewrite !filter_app, error_logs_waitFor_failures, info_logs_waitFor_failures.
    destruct (verify_at d (probes w + 100)) as [e|] eqn:E; [|congruence].
    cbn [filter is_error_log is_info_log attempt_log failed_probes
         is_failed_probe List.length app].
    replace (100 + 1)%nat with 101%nat by reflexivity.
    rewrite (seq_S 100), map_app.
    split; [reflexivity|]. split; [reflexivity|].
    intros w2 Hw2. apply probes_same_erased in Hw2 as Hp.
    rewrite (waitFor_gives_up d fuel w2) by (rewrite ?Hp; lia || assumption).
    cbn [fst snd]. rewrite !erase_slog_app, Hw2, Hp, E. split; reflexivity.
Qed.

Lemma waitFor_events_witness :
  filter is_error_log (events_since [] (snd (waitFor 101 (ready_after 2 no_rows) [])))
  = [attempt_log 1; attempt_log 2]
  /\ filter is_info_log (events_since [] (snd (waitFor 101 (ready_after 2 no_rows) [])))
     = [connected_log].
Proof.
  pose proof (waitFor_events (ready_after 2 no_rows) 101 [] (le_n 101)) as H.
  destruct (waitFor 101 (ready_after 2 no_rows) []) as [r w'] eqn:E.
  destruct H as (Herr & Hinfo & _). cbn [snd].
  assert (Hr : r = Returns None /\ failed_probes (events_since [] w') = 2%nat)
    by (vm_compute in E; inversion E; subst; split; reflexivity).
  destruct Hr as [-> Hn]. rewrite Herr, Hinfo, Hn. split; reflexivity.
Defined.

(* ================================================================== *)
(** ** The count helpers *)

(** C8: [countAllNodes] and [countAllEdges] hand a failed query back as
    [(0, err)], but a successful answer is read without any check: with
    no row the index [Records[0]] panics, and with a first value that is
    not an [int64] the type assertion panics. *)
Theorem count_not_total (d : Driver) (w : World) :
  let nodes := query_at d (queries w) nodes_query in
  let edges := query_at d (queries w) edges_query in
  (forall res e, nodes = (res, Some e) ->
     fst (countAllNodes d w) = Returns (0, Some e))
  /\ (forall res, nodes = (Some res, None) -> Records res = [] ->
        fst (countAllNodes d w) = Panics (IndexOutOfRange 0 0))
  /\ (forall res row rows v vs,
        nodes = (Some res, None) -> Records res = Some row :: rows ->
        Values row = v :: vs -> (forall n, v <> VInt64 n) ->
        fst (countAllNodes d w) = Panics (InterfaceConversion v))
  /\ (forall res e, edges = (res, Some e) ->
        fst (countAllEdges d w) = Returns (0, Some e))
  /\ (forall res, edges = (Some res, None) -> Records res = [] ->
        fst (countAllEdges d w) = Panics (IndexOutOfRange 0 0))
  /\ (forall res row rows v vs,
        edges = (Some res, None) -> Records res = Some row :: rows ->
        Values row = v :: vs -> (forall n, v <> VInt64 n) ->
        fst (countAllEdges d w) = Panics (InterfaceConversion v)).
Proof.
  cbv zeta. unfold nodes_query, edges_query.
  repeat match goal with |- _ /\ _ => split end.
  all: unfold countAllNodes, countAllEdges, bind, ExecuteQuery.
  all: intros; cbv zeta;
    match goal with H : query_at _ _ _ = _ |- _ => rewrite H end;
    try reflexivity.
  all: unfold first_int64, bind, deref, index, ret;
    match goal with H : Records _ = _ |- _ => rewrite H end;
    try reflexivity.
  all: cbn [nth_error];
    match goal with H : Values _ = _ |- _ => rewrite H end;
    cbn [nth_error];
    match goal with
    | H : forall n, ?v <> VInt64 n |- _ =>
        destruct v; try reflexivity; exfalso; eapply H; reflexivity
    end.
Qed.

Lemma count_not_total_witness :
  fst (countAllNodes refusing []) = Returns (0, Some "connection refused")
  /\ fst (countAllNodes (ready_after 0 no_rows) [])
     = Panics (IndexOutOfRange 0 0)
  /\ fst (countAllEdges (ready_after 0 (single (VString "three"))) [])
     = Panics (InterfaceConversion (VString "three")).
Proof.
  split; [|split].
  - apply (proj1 (count_not_total refusing [])) with (res := None).
    reflexivity.
  - destruct (count_not_total (ready_after 0 no_rows) []) as (_ & H & _).
    apply (H (mkEagerResult ["count"] [])); reflexivity.
  - destruct (count_not_total (ready_after 0 (single (VString "three"))) [])
      as (_ & _ & _ & _ & _ & H).
    apply (H (mkEagerResult ["count"] [Some (mkRecord ["count"] [VString "three"])])
             (mkRecord ["count"] [VString "three"]) [] (VString "three") []);
      try reflexivity.
    intros n. discriminate.
Defined.

(* ================================================================== *)
(** ** The test harness *)

Lemma queries_app (w t : World) : queries (w ++ t) = (queries w + queries t)%nat.
Proof. unfold queries. now rewrite filter_app, length_app. Qed.

(** C9: [deleteEverything] has an [error] result that is never used: a
    failed query ends the process through [log.Fatalf], and otherwise the
    function returns [nil]. *)
Theorem deleteEverything_never_returns_error (d : Driver) (w : World) :
  (forall e, fst (deleteEverything d w) <> Returns (Some e))
  /\ match snd (query_at d (queries w) delete_query) with
     | Some e =>
         fst (deleteEverything d w)
         = Exits 1 ("Could not delete everything: " ++ e)%string
     | None => fst (deleteEverything d w) = Returns None
     end.
Proof.
  assert (Hq : queries (w ++ [EvNewSession]) = queries w)
    by (rewrite queries_app; cbn; lia).
  unfold deleteEverything, delete_query, bind, defer, NewSession, emit,
    ExecuteQuery.
  cbv zeta. rewrite Hq.
  destruct (query_at d (queries w) "MATCH (n) DETACH DELETE n;") as [res [e|]];
    cbn [snd]; unfold log_Fatalf; rewrite ?delete_fatal_text; cbn.
  - split; [intros e'; discriminate | reflexivity].
  - split; [intros e'; discriminate | reflexivity].
Qed.

Lemma slog_waitFor_failures (d : Driver) (c : nat) (a : Z) (k : nat) :
  List.length (filter is_slog (waitFor_failures d c a k)) = k.
Proof.
  revert c a. induction k as [|k IH]; intros c a; [reflexivity|].
  cbn [waitFor_failures filter is_slog attempt_log List.length].
  now rewrite IH.
Qed.

Lemma TestMain_wait_silent (d : Driver) (fuel : nat) (w : World) :
  (11 <= fuel)%nat ->
  filter is_slog (events_since w (snd (TestMain_wait fuel d w))) = [].
Proof.
  intros Hfuel.
  destruct (TestMain_wait_run d fuel w Hfuel)
    as [(k & _ & _ & _ & Hrun) | (e & _ & _ & Hrun)];
    rewrite Hrun; cbn [snd];
    now rewrite events_since_app, filter_app, slog_TestMain_failures.
Qed.

(** C10: the readiness loop of [TestMain] is a loop of its own.  When the
    first 11 probes fail it ends the process through [log.Fatalf] after
    the 11th, where [waitFor] is still probing and in the end returns to
    its caller; and no run of it writes a log line, where [waitFor]
    writes one for every probe. *)
Theorem TestMain_wait_is_not_waitFor (d : Driver) (fuel : nat) (w : World) :
  (101 <= fuel)%nat ->
  fails_from d (probes w) 11 ->
  (exists e w',
     verify_at d (probes w + 10) = Some e
     /\ TestMain_wait fuel d w
        = (Exits 1 ("Could not connect to memgraph: " ++ e)%string, w')
     /\ probes (events_since w w') = 11%nat
     /\ filter is_slog (events_since w w') = [])
  /\ (exists r w',
        waitFor fuel d w = (Returns r, w')
        /\ (11 < probes (events_since w w'))%nat
        /\ List.length (filter is_slog (events_since w w'))
           = probes (events_since w w'))
  /\ (forall d0 w0,
        filter is_slog (events_since w0 (snd (TestMain_wait fuel d0 w0))) = []).
Proof.
  intros Hfuel Hf. split; [|split].
  - destruct (TestMain_wait_run d fuel w)
      as [(k & Hk & _ & Hs & _) | (e & _ & He & Hrun)]; [lia | |].
    + exfalso. apply (Hf k); [lia|assumption].
    + exists e. eexists. split; [assumption|]. split; [exact Hrun|].
      rewrite events_since_app, probes_TestMain_run, filter_app,
        slog_TestMain_failures.
      split; reflexivity.
  - destruct (waitFor_run d fuel w Hfuel)
      as [(k & Hk & Hfk & Hs & Hrun) | [Hall Hrun]];
      do 2 eexists; (split; [exact Hrun|]);
      rewrite events_since_app, filter_app, length_app, slog_waitFor_failures.
    + rewrite (probes_connect_run d (probes w) k) by reflexivity.
      split; [|cbn; lia].
      destruct (Nat.le_gt_cases k 10) as [Hle|Hgt]; [|lia].
      exfalso. apply (Hf k); [lia|assumption].
    + rewrite (probes_connect_run d (probes w) 100) by reflexivity.
      split; [lia|cbn; lia].
  - intros d0 w0. apply TestMain_wait_silent. lia.
Qed.

Lemma TestMain_wait_is_not_waitFor_witness :
  fst (TestMain_wait 101 refusing [])
  = Exits 1 "Could not connect to memgraph: connection refused"
  /\ fst (waitFor 101 refusing [])
     = Returns (Some "could not connect to memgraph even though it took 101 attemps").
Proof.
  assert (Hf : fails_from refusing (probes []) 11)
    by (intros i _; cbn; discriminate).
  destruct (TestMain_wait_is_not_waitFor refusing 101 [] (le_n 101) Hf)
    as ((e & w' & He & Hrun & _) & (r & w'' & Hmain & _) & _).
  split.
  - rewrite Hrun. cbn [fst]. cbn in He. inversion He. reflexivity.
  - vm_compute. reflexivity.
Defined.

Lemma deleteEverything_never_returns_error_witness :
  fst (deleteEverything refusing [])
  = Exits 1 "Could not delete everything: connection refused".
Proof.
  exact (proj2 (deleteEverything_never_returns_error refusing [])).
Defined.

(* ================================================================== *)
(** ** The history of the whole program: basic facts *)

Lemma base_of_app (t u : Trace) : base_of (t ++ u) = base_of t ++ base_of u.
Proof. apply flat_map_app. Qed.

Lemma base_of_map_Base (u : list Event) : base_of (map Base u) = u.
Proof.
  unfold base_of. induction u as [|e u IH]; cbn; [reflexivity|now rewrite IH].
Qed.

Lemma runs_app (t u : Trace) : runs (t ++ u) = (runs t + runs u)%nat.
Proof. unfold runs. now rewrite filter_app, length_app. Qed.

Lemma runs_map_Base (u : list Event) : runs (map Base u) = 0%nat.
Proof. induction u as [|e u IH]; [reflexivity|exact IH]. Qed.

(** A function of the sections above that adds [u] to what it sees adds
    [u] to the history of the whole program. *)
Lemma lift_appends {A} (c : M A) (t : Trace) (r : Outcome A) (u : list Event) :
  c (base_of t) = (r, base_of t ++ u) ->
  lift c t = (r, t ++ map Base u).
Proof. intros H. unfold lift. now rewrite H, events_since_app. Qed.

Lemma lift_ExecuteQuery (d : Driver) (q : string) (t : Trace) :
  lift (ExecuteQuery d q) t
  = (Returns (query_at d (queries (base_of t)) q), t ++ [Base (EvExecuteQuery q)]).
Proof. now apply (lift_appends _ t _ [EvExecuteQuery q]). Qed.

Lemma lift_emit (e : Event) (t : Trace) :
  lift (emit e) t = (Returns tt, t ++ [Base e]).
Proof. now apply (lift_appends _ t _ [e]). Qed.

Lemma lift_log_Fatalf {A} (format : string) (args : list Arg) (t : Trace) :
  lift (@log_Fatalf A format args) t = (Exits 1 (Sprintf format args), t).
Proof.
  rewrite <- (app_nil_r t) at 2.
  apply (lift_appends _ t _ []). unfold log_Fatalf. now rewrite app_nil_r.
Qed.

Lemma answers_cons (env : Env) (d : Driver) (t : Trace) (s : Statement)
  (l : list Statement) :
  answers env d (runs t) (queries (base_of t)) (s :: l)
  = answer env d t s
      :: answers env d (runs (t ++ [statement_call s]))
           (queries (base_of (t ++ [statement_call s]))) l.
Proof.
  rewrite runs_app, base_of_app, queries_app.
  destruct s as [q|q]; cbn [answers answer statement_call].
  - replace (runs t + runs [CallSessionRun q])%nat with (S (runs t)) by (cbn; lia).
    replace (queries (base_of t) + queries (base_of [CallSessionRun q]))%nat
      with (queries (base_of t)) by (cbn; lia).
    reflexivity.
  - replace (runs t + runs [Base (EvExecuteQuery q)])%nat with (runs t)
      by (cbn; lia).
    replace (queries (base_of t) + queries (base_of [Base (EvExecuteQuery q)]))%nat
      with (S (queries (base_of t))) by (cbn; lia).
    reflexivity.
Qed.

(* ================================================================== *)
(** ** The loops of [insertData] *)

Section InsertLoops.
Variable env : Env.
Variable d : Driver.

Lemma run_loop_send_all (l : list string) (t : Trace) :
  for_range l (run_or_return env) t
  = let (e, t') := send_all env d (map ViaRun l) t in
    (Returns (option_map Some e), t').
Proof.
  revert t. induction l as [|q l IH]; intros t; [reflexivity|].
  cbn [for_range map send_all answer statement_call].
  unfold pbind at 1, run_or_return at 1, pbind, SessionRun.
  destruct (run_at env (runs t) q) as [e|]; [reflexivity|].
  cbn. apply IH.
Qed.

Lemma execute_loop_send_all (l : list string) (t : Trace) :
  for_range l (execute_or_return d) t
  = let (e, t') := send_all env d (map ViaExecuteQuery l) t in
    (Returns (option_map Some e), t').
Proof.
  revert t. induction l as [|q l IH]; intros t; [reflexivity|].
  cbn [for_range map send_all answer statement_call].
  unfold pbind at 1, execute_or_return at 1, pbind.
  rewrite lift_ExecuteQuery.
  destruct (query_at d (queries (base_of t)) q) as [res [e|]]; [reflexivity|].
  cbn. apply IH.
Qed.

Lemma send_all_app (l1 l2 : list Statement) (t : Trace) :
  send_all env d (l1 ++ l2) t
  = match send_all env d l1 t with
    | (Some e, t1) => (Some e, t1)
    | (None, t1) => send_all env d l2 t1
    end.
Proof.
  revert t. induction l1 as [|s l1 IH]; intros t; [reflexivity|].
  cbn [List.app send_all]. destruct (answer env d t s); [reflexivity|apply IH].
Qed.

(** [insertData] is one pass over all its statements, between the opening
    and the closing of the session. *)
Lemma insertData_send_all (t : Trace) :
  insertData env d t
  = let (e, t') := send_all env d insert_statements (t ++ [Base EvNewSession]) in
    (Returns e,
     t' ++ match e with None => [all_insert_log] | Some _ => [] end
        ++ [Base EvSessionClose]).
Proof.
  unfold insertData, insert_statements, NewSession, SessionClose, slog_Info.
  unfold pbind at 1. rewrite lift_emit.
  rewrite !map_app, send_all_app.
  unfold pdefer, pbind.
  rewrite run_loop_send_all.
  destruct (send_all env d (map ViaRun indexes) (t ++ [Base EvNewSession]))
    as [[e|] t1]; cbn [option_map];
    [unfold pret; rewrite lift_emit; reflexivity|].
  rewrite execute_loop_send_all, send_all_app.
  destruct (send_all env d (map ViaExecuteQuery developer_nodes) t1)
    as [[e|] t2]; cbn [option_map];
    [unfold pret; rewrite lift_emit; reflexivity|].
  rewrite execute_loop_send_all, send_all_app.
  destruct (send_all env d (map ViaExecuteQuery technology_nodes) t2)
    as [[e|] t3]; cbn [option_map];
    [unfold pret; rewrite lift_emit; reflexivity|].
  rewrite execute_loop_send_all.
  destruct (send_all env d (map ViaExecuteQuery relationships) t3)
    as [[e|] t4]; cbn [option_map];
    [unfold pret; rewrite lift_emit; reflexivity|].
  rewrite lift_emit. unfold pret. rewrite lift_emit.
  rewrite <- app_assoc. reflexivity.
Qed.

Lemma send_all_accepted (l : list Statement) (t : Trace) :
  Forall (fun a => a = None) (answers env d (runs t) (queries (base_of t)) l) ->
  send_all env d l t = (None, t ++ map statement_call l).
Proof.
  revert t. induction l as [|s l IH]; intros t H.
  - cbn. now rewrite app_nil_r.
  - rewrite answers_cons in H. inversion H as [|a0 l0 Ha Hl]; subst.
    cbn [send_all map]. rewrite Ha, IH by assumption.
    now rewrite <- app_assoc.
Qed.

Lemma send_all_first_failure (l : list Statement) (t : Trace) (i : nat) (e : error) :
  first_failure (answers env d (runs t) (queries (base_of t)) l) i e ->
  send_all env d l t = (Some e, t ++ map statement_call (firstn (S i) l)).
Proof.
  revert t i. induction l as [|s l IH]; intros t i [Hi Hbefore].
  - destruct i; discriminate.
  - rewrite answers_cons in Hi, Hbefore. cbn [send_all].
    destruct i as [|i].
    + cbn in Hi. inversion Hi as [Ha]. rewrite Ha. reflexivity.
    + assert (Ha : answer env d t s = None).
      { specialize (Hbefore 0%nat). cbn in Hbefore.
        assert (H0 : Some (answer env d t s) = Some None) by (apply Hbefore; lia).
        now inversion H0. }
      rewrite Ha, (IH _ i).
      * cbn [firstn map]. now rewrite <- app_assoc.
      * split; [exact Hi|]. intros j Hj. apply (Hbefore (S j)). lia.
Qed.

(** Whatever the outside answers, the statements sent are a beginning of
    the list, and an error is the answer to the last one sent. *)
Lemma send_all_prefix (l : list Statement) (t : Trace) :
  exists n,
    (n <= List.length l)%nat
    /\ snd (send_all env d l t) = t ++ map statement_call (firstn n l)
    /\ match fst (send_all env d l t) with
       | None => n = List.length l
       | Some e =>
           first_failure (answers env d (runs t) (queries (base_of t)) l)
                         (n - 1) e
           /\ (0 < n)%nat
       end.
Proof.
  revert t. induction l as [|s l IH]; intros t.
  - exists 0%nat. cbn. rewrite app_nil_r. auto.
  - rewrite answers_cons. cbn [send_all].
    destruct (answer env d t s) as [e|] eqn:Ha.
    + exists 1%nat. cbn [fst snd firstn map List.length].
      split; [lia|]. split; [reflexivity|]. split; [|lia].
      split; [reflexivity|]. intros j Hj. cbn in Hj. lia.
    + destruct (IH (t ++ [statement_call s])) as (n & Hn & Ht & Hr).
      exists (S n). cbn [List.length firstn map]. split; [lia|]. split.
      * rewrite Ht. now rewrite <- app_assoc.
      * destruct (fst (send_all env d l (t ++ [statement_call s]))) as [e|].
        -- destruct Hr as [[Hi Hbefore] Hpos]. split; [|lia].
           replace (S n - 1)%nat with (S (n - 1)) by lia. split; [exact Hi|].
           intros j Hj. destruct j as [|j]; [reflexivity|].
           apply Hbefore. lia.
        -- lia.
Qed.

End InsertLoops.

(* ================================================================== *)
(** ** [insertData] *)

Lemma answers_after_NewSession (env : Env) (d : Driver) (t : Trace)
  (l : list Statement) :
  answers env d (runs (t ++ [Base EvNewSession]))
          (queries (base_of (t ++ [Base EvNewSession]))) l
  = answers env d (runs t) (queries (base_of t)) l.
Proof.
  rewrite runs_app, base_of_app, queries_app. cbn. now rewrite !Nat.add_0_r.
Qed.

(** The runs of [insertData], for the callers below. *)
Lemma insertData_accepted_run (env : Env) (d : Driver) (t : Trace) :
  Forall (fun a => a = None)
         (answers env d (runs t) (queries (base_of t)) insert_statements) ->
  insertData env d t
  = (Returns None,
     t ++ Base EvNewSession :: map statement_call insert_statements
       ++ [all_insert_log; Base EvSessionClose]).
Proof.
  intros H. rewrite insertData_send_all, send_all_accepted
    by (now rewrite answers_after_NewSession).
  rewrite <- !app_assoc. reflexivity.
Qed.

Lemma insertData_refused_run (env : Env) (d : Driver) (t : Trace)
  (i : nat) (e : error) :
  first_failure (answers env d (runs t) (queries (base_of t)) insert_statements)
                i e ->
  insertData env d t
  = (Returns (Some e),
     t ++ Base EvNewSession
       :: map statement_call (firstn (S i) insert_statements)
       ++ [Base EvSessionClose]).
Proof.
  intros H. rewrite insertData_send_all, (send_all_first_failure env d _ _ i e)
    by (now rewrite answers_after_NewSession).
  rewrite <- !app_assoc. reflexivity.
Qed.

Lemma insertData_shape (env : Env) (d : Driver) (t : Trace) :
  exists r n,
    (1 <= n <= 18)%nat
    /\ insertData env d t
       = (Returns r,
          t ++ Base EvNewSession
            :: map statement_call (firstn n insert_statements)
            ++ match r with None => [all_insert_log] | Some _ => [] end
            ++ [Base EvSessionClose])
    /\ match r with None => n = 18%nat | Some _ => True end.
Proof.
  rewrite insertData_send_all.
  destruct (send_all_prefix env d insert_statements (t ++ [Base EvNewSession]))
    as (n & Hn & Ht & Hr).
  destruct (send_all env d insert_statements (t ++ [Base EvNewSession]))
    as [r t'] eqn:E.
  cbn [fst snd] in Ht, Hr. subst t'.
  exists r, n. change (List.length insert_statements) with 18%nat in *.
  split; [|split].
  - destruct r as [e|]; [destruct Hr; lia | lia].
  - rewrite <- !app_assoc. reflexivity.
  - destruct r; [exact I | exact Hr].
Qed.

(** X1: when the database accepts all 18 statements, [insertData] returns
    [nil]; between opening and closing its session it has sent the four
    index statements through [session.Run] and then the node and
    relationship statements through [ExecuteQuery], in the order of the
    source, and has logged once. *)
Theorem insertData_all_inserted (env : Env) (d : Driver) (t : Trace) :
  Forall (fun a => a = None)
         (answers env d (runs t) (queries (base_of t)) insert_statements) ->
  insertData env d t
  = (Returns None,
     t ++ Base EvNewSession :: map statement_call insert_statements
       ++ [all_insert_log; Base EvSessionClose]).
Proof.
  intros H. rewrite insertData_send_all, send_all_accepted
    by (now rewrite answers_after_NewSession).
  rewrite <- !app_assoc. reflexivity.
Qed.

Lemma insertData_all_inserted_witness :
  insertData willing (ready_after 0 no_rows) []
  = (Returns None,
     [] ++ Base EvNewSession :: map statement_call insert_statements
        ++ [all_insert_log; Base EvSessionClose]).
Proof.
  apply (insertData_all_inserted willing (ready_after 0 no_rows) []).
  vm_compute. repeat constructor.
Defined.

(** X2: [insertData] stops at the first statement whose call returns an
    error ([session.Run] for the index statements, [ExecuteQuery] for the
    others): it returns that error, sends nothing after it, does not log,
    and still closes its session.  An index statement that fails only
    when its result is read is not such a call: the result of
    [session.Run] is dropped unread. *)
Theorem insertData_stops_at_first_failure (env : Env) (d : Driver) (t : Trace)
  (i : nat) (e : error) :
  first_failure (answers env d (runs t) (queries (base_of t)) insert_statements)
                i e ->
  insertData env d t
  = (Returns (Some e),
     t ++ Base EvNewSession
       :: map statement_call (firstn (S i) insert_statements)
       ++ [Base EvSessionClose]).
Proof.
  intros H. rewrite insertData_send_all, (send_all_first_failure env d _ _ i e)
    by (now rewrite answers_after_NewSession).
  rewrite <- !app_assoc. reflexivity.
Qed.

Lemma insertData_stops_at_first_failure_witness :
  insertData (failing_run 2) (ready_after 0 no_rows) []
  = (Returns (Some "index exists"),
     [Base EvNewSession;
      CallSessionRun "CREATE INDEX ON :Developer(id);";
      CallSessionRun "CREATE INDEX ON :Technology(id);";
      CallSessionRun "CREATE INDEX ON :Developer(name);";
      Base EvSessionClose]).
Proof.
  apply (insertData_stops_at_first_failure
           (failing_run 2) (ready_after 0 no_rows) [] 2 "index exists").
  split.
  - reflexivity.
  - intros j Hj. do 2 (destruct j as [|j]; [reflexivity|]). lia.
Defined.

(** X3: whatever the database answers, [insertData] returns to its caller
    (it neither exits nor panics), the statements it has sent are a
    non-empty beginning of its list in order, it logs exactly when it
    returns [nil], which needs all 18 statements, and closing the session
    is the last thing it does. *)
Theorem insertData_always_closes (env : Env) (d : Driver) (t : Trace) :
  exists r n,
    (1 <= n <= 18)%nat
    /\ insertData env d t
       = (Returns r,
          t ++ Base EvNewSession
            :: map statement_call (firstn n insert_statements)
            ++ match r with None => [all_insert_log] | Some _ => [] end
            ++ [Base EvSessionClose])
    /\ match r with None => n = 18%nat | Some _ => True end.
Proof.
  rewrite insertData_send_all.
  destruct (send_all_prefix env d insert_statements (t ++ [Base EvNewSession]))
    as (n & Hn & Ht & Hr).
  destruct (send_all env d insert_statements (t ++ [Base EvNewSession]))
    as [r t'] eqn:E.
  cbn [fst snd] in Ht, Hr. subst t'.
  exists r, n. change (List.length insert_statements) with 18%nat in *.
  split; [|split].
  - destruct r as [e|]; [destruct Hr; lia | lia].
  - rewrite <- !app_assoc. reflexivity.
  - destruct r; [exact I | exact Hr].
Qed.

(* ================================================================== *)
(** ** The count helpers, read as a whole *)

Lemma count_with (d : Driver) (w : World) (query : string)
  (count : Driver -> M (Z * option error)) :
  (forall w0, count d w0
     = (' (result, err) <- ExecuteQuery d query ;;
        match err with
        | Some e => ret (0, Some e)
        | None => n <- first_int64 result ;; ret (n, None)
        end) w0) ->
  snd (count d w) = w ++ [EvExecuteQuery query]
  /\ (forall e, snd (query_at d (queries w) query) = Some e ->
        fst (count d w) = Returns (0, Some e))
  /\ (forall n,
        fst (count d w) = Returns (n, None)
        <-> snd (query_at d (queries w) query) = None
            /\ first_value (query_at d (queries w) query) = Some (VInt64 n))
  /\ (snd (query_at d (queries w) query) = None ->
      (forall n, first_value (query_at d (queries w) query) <> Some (VInt64 n)) ->
      exists p, fst (count d w) = Panics p).
Proof.
  intros Hc. rewrite Hc. unfold bind, ExecuteQuery, first_value.
  destruct (query_at d (queries w) query) as [res [e|]]; cbn [fst snd].
  - split; [reflexivity|]. split; [|split].
    + intros e' He'. inversion He'. reflexivity.
    + intros n. split; [discriminate | intros [H _]; discriminate].
    + discriminate.
  - unfold first_int64, bind, deref, index, assert_int64, ret, panic.
    split; [|split; [discriminate|split]].
    + destruct res as [[keys [|[[rk [|v vs]]|] rows]]|]; try reflexivity.
      destruct v; reflexivity.
    + intros n.
      destruct res as [[keys [|[[rk [|v vs]]|] rows]]|]; cbn;
        try (split; [discriminate | intros [_ H]; discriminate]).
      destruct v; cbn;
        try (split; [discriminate | intros [_ H]; discriminate]).
      split.
      * intros H. inversion H. auto.
      * intros [_ H]. inversion H. reflexivity.
    + intros _ Hv.
      destruct res as [[keys [|[[rk [|v vs]]|] rows]]|]; cbn; eauto.
      destruct v; cbn; eauto. exfalso. apply (Hv n). reflexivity.
Qed.

(** X4: [countAllNodes] and [countAllEdges] send exactly one query
    whatever comes back, and they return a count [n] with a [nil] error
    exactly when the query has no error and the first value of the first
    record is the [int64] [n]; further records and values are not looked
    at. *)
Theorem count_returns_first_value (d : Driver) (w : World) (n : Z) :
  (snd (countAllNodes d w) = w ++ [EvExecuteQuery nodes_query]
   /\ (fst (countAllNodes d w) = Returns (n, None)
       <-> snd (query_at d (queries w) nodes_query) = None
           /\ first_value (query_at d (queries w) nodes_query)
              = Some (VInt64 n)))
  /\ (snd (countAllEdges d w) = w ++ [EvExecuteQuery edges_query]
      /\ (fst (countAllEdges d w) = Returns (n, None)
          <-> snd (query_at d (queries w) edges_query) = None
              /\ first_value (query_at d (queries w) edges_query)
                 = Some (VInt64 n))).
Proof.
  split.
  - destruct (count_with d w nodes_query countAllNodes) as (Hw & _ & Hn & _);
      [reflexivity|]. split; [exact Hw | apply Hn].
  - destruct (count_with d w edges_query countAllEdges) as (Hw & _ & Hn & _);
      [reflexivity|]. split; [exact Hw | apply Hn].
Qed.

Lemma count_returns_first_value_witness :
  fst (countAllNodes (ready_after 0 (single (VInt64 8))) []) = Returns (8, None)
  /\ fst (countAllEdges (ready_after 0 (single (VInt64 8))) [])
     = Returns (8, None).
Proof.
  destruct (count_returns_first_value (ready_after 0 (single (VInt64 8))) [] 8)
    as [[_ Hn] [_ He]].
  split; [apply Hn | apply He]; split; reflexivity.
Defined.

(* ================================================================== *)
(** ** [main] *)

Transparent Sprintf.

Lemma host_text :
  Sprintf "bolt://%s:%s" [ArgString "localhost"; ArgString "7687"] = host.
Proof. reflexivity. Qed.

Lemma driver_fatal_text (e : error) :
  Sprintf "Could not create driver: %s" [ArgString e]
  = ("Could not create driver: " ++ e)%string.
Proof. cbn. now rewrite append_empty. Qed.

Lemma insert_fatal_text (e : error) :
  Sprintf "Could not insert data into memgraph: %s" [ArgString e]
  = ("Could not insert data into memgraph: " ++ e)%string.
Proof. cbn. now rewrite append_empty. Qed.

Lemma nodes_fatal_text (e : error) :
  Sprintf "Could not count nodes: %s" [ArgString e]
  = ("Could not count nodes: " ++ e)%string.
Proof. cbn. now rewrite append_empty. Qed.

Lemma edges_fatal_text (e : error) :
  Sprintf "Could not count edges: %s" [ArgString e]
  = ("Could not count edges: " ++ e)%string.
Proof. cbn. now rewrite append_empty. Qed.

Opaque Sprintf.

Lemma lift_ret {A} (a : A) (t : Trace) : lift (ret a) t = (Returns a, t).
Proof.
  rewrite <- (app_nil_r t) at 2.
  apply (lift_appends _ t _ []). unfold ret. now rewrite app_nil_r.
Qed.

Lemma queries_waitFor_failures (d : Driver) (c : nat) (a : Z) (k : nat) :
  queries (waitFor_failures d c a k) = 0%nat.
Proof.
  revert c a. induction k as [|k IH]; intros c a; [reflexivity|].
  cbn [waitFor_failures]. apply IH.
Qed.

Lemma queries_waitFor_connected (d : Driver) (c k : nat) :
  queries (waitFor_connected d c k) = 0%nat.
Proof.
  unfold waitFor_connected. now rewrite queries_app, queries_waitFor_failures.
Qed.

Section MainRuns.
Variable fuel : nat.
Variable env : Env.
Variable d : Driver.
Hypothesis Hfuel : (101 <= fuel)%nat.
Hypothesis Hnew : new_driver env host = (Some d, None).

Lemma lift_waitFor_connects (t : Trace) (k : nat) :
  ready_at d (probes (base_of t)) k ->
  lift (waitFor fuel d) t
  = (Returns None, t ++ map Base (waitFor_connected d (probes (base_of t)) k)).
Proof.
  intros (Hk & Hf & Hs). apply lift_appends.
  apply waitFor_connects; try assumption. lia.
Qed.

Lemma lift_waitFor_gives_up (t : Trace) :
  fails_from d (probes (base_of t)) 101 ->
  lift (waitFor fuel d) t
  = (Returns (Some (waitFor_timeout 101)),
     t ++ map Base (waitFor_failures d (probes (base_of t)) 0 100
                      ++ [EvVerifyConnectivity
                            (verify_at d (probes (base_of t) + 100));
                          attempt_log 101])).
Proof.
  intros Hf. apply lift_appends. now apply waitFor_gives_up.
Qed.

Lemma counters_after_wait (k : nat) :
  runs ([CallNewDriver host] ++ map Base (waitFor_connected d 0 k)) = 0%nat
  /\ queries (base_of ([CallNewDriver host]
                         ++ map Base (waitFor_connected d 0 k))) = 0%nat.
Proof.
  rewrite runs_app, runs_map_Base, base_of_app, base_of_map_Base, queries_app,
    queries_waitFor_connected.
  split; reflexivity.
Qed.

Lemma lift_count_value (t : Trace) (query : string)
  (count : Driver -> M (Z * option error)) (n : Z) :
  (count = countAllNodes /\ query = nodes_query)
  \/ (count = countAllEdges /\ query = edges_query) ->
  snd (query_at d (queries (base_of t)) query) = None ->
  first_value (query_at d (queries (base_of t)) query) = Some (VInt64 n) ->
  lift (count d) t = (Returns (n, None), t ++ [Base (EvExecuteQuery query)]).
Proof.
  intros Hc He Hv. apply (lift_appends _ t _ [EvExecuteQuery query]).
  destruct (count_with d (base_of t) query count) as (Hw & _ & Hn & _).
  - destruct Hc as [[-> ->] | [-> ->]]; reflexivity.
  - destruct (count d (base_of t)) as [r w']. cbn [fst snd] in Hw, Hn.
    subst w'. f_equal. apply Hn. auto.
Qed.

Lemma lift_count_panics (t : Trace) (query : string)
  (count : Driver -> M (Z * option error)) :
  (count = countAllNodes /\ query = nodes_query)
  \/ (count = countAllEdges /\ query = edges_query) ->
  snd (query_at d (queries (base_of t)) query) = None ->
  (forall n, first_value (query_at d (queries (base_of t)) query)
             <> Some (VInt64 n)) ->
  exists p,
    lift (count d) t = (Panics p, t ++ [Base (EvExecuteQuery query)]).
Proof.
  intros Hc He Hv.
  destruct (count_with d (base_of t) query count) as (Hw & _ & _ & Hp).
  - destruct Hc as [[-> ->] | [-> ->]]; reflexivity.
  - destruct (Hp He Hv) as [p Hpanic]. exists p.
    apply (lift_appends _ t _ [EvExecuteQuery query]).
    destruct (count d (base_of t)) as [r w']. cbn [fst snd] in Hw, Hpanic.
    now subst.
Qed.

(** The start of [main] once the driver is there: up to [waitFor]. *)
Ltac main_start :=
  unfold main; cbv zeta; rewrite host_text;
  unfold pbind at 1; unfold NewDriverWithContext; rewrite Hnew;
  unfold pbind at 1; cbn [deref]; rewrite lift_ret;
  unfold pdefer, pbind at 1;
  change ([] ++ [CallNewDriver host]) with [CallNewDriver host].

(** X5: when the database answers none of the first 101 probes, [main]
    ends the process with status 1 and the text of the timeout of
    [waitFor]; it has created the driver and probed, has sent no
    statement, and the deferred [driver.Close] has not run. *)
Theorem main_gives_up :
  fails_from d 0 101 ->
  main fuel env []
  = (Exits 1 "Could not connect to memgraph: could not connect to memgraph even though it took 101 attemps",
     CallNewDriver host
       :: map Base (waitFor_failures d 0 0 100
                      ++ [EvVerifyConnectivity (verify_at d 100);
                          attempt_log 101])).
Proof.
  intros Hf. main_start.
  rewrite lift_waitFor_gives_up by exact Hf.
  rewrite lift_log_Fatalf, connect_fatal_text, waitFor_timeout_101.
  reflexivity.
Qed.

(** X6: when the database is ready at probe [k] and statement [i] is the
    first whose call ([session.Run] or [ExecuteQuery]) returns an error,
    [e], [main] ends the process with status 1 and the text of [e]; the
    session of [insertData] has been closed, no count query has been sent
    and [driver.Close] has not run. *)
Theorem main_insert_failure (k i : nat) (e : error) :
  ready_at d 0 k ->
  first_failure (answers env d 0 0 insert_statements) i e ->
  main fuel env []
  = (Exits 1 ("Could not insert data into memgraph: " ++ e)%string,
     CallNewDriver host
       :: map Base (waitFor_connected d 0 k)
       ++ Base EvNewSession
       :: map statement_call (firstn (S i) insert_statements)
       ++ [Base EvSessionClose]).
Proof.
  intros Hready Hfail. main_start.
  rewrite (lift_waitFor_connects _ k) by exact Hready.
  change (probes (base_of [CallNewDriver host])) with 0%nat.
  destruct (counters_after_wait k) as [Hr Hq].
  unfold pbind at 1.
  rewrite (insertData_refused_run env d _ i e)
    by (rewrite Hr, Hq; exact Hfail).
  rewrite lift_log_Fatalf, insert_fatal_text.
  reflexivity.
Qed.

(** X7: when the database is ready at probe [k], accepts all statements
    and answers the two count queries with the [int64] values [n] and
    [m], [main] returns; in this order it has created the driver, waited,
    inserted, counted and logged the nodes, counted and logged the edges,
    and closed the driver. *)
Theorem main_success (k : nat) (n m : Z) :
  ready_at d 0 k ->
  Forall (fun a => a = None) (answers env d 0 0 insert_statements) ->
  snd (query_at d 14 nodes_query) = None ->
  first_value (query_at d 14 nodes_query) = Some (VInt64 n) ->
  snd (query_at d 15 edges_query) = None ->
  first_value (query_at d 15 edges_query) = Some (VInt64 m) ->
  main fuel env []
  = (Returns tt,
     CallNewDriver host
       :: map Base (waitFor_connected d 0 k)
       ++ Base EvNewSession
       :: map statement_call insert_statements
       ++ [all_insert_log; Base EvSessionClose;
           Base (EvExecuteQuery nodes_query);
           Base (EvSlog LevelInfo "Total nodes in the graph" [("nodes", n)]);
           Base (EvExecuteQuery edges_query);
           Base (EvSlog LevelInfo "Total edges in the graph" [("edges", m)]);
           CallDriverClose]).
Proof.
  intros Hready Hins Hne Hnv Hee Hev. main_start.
  rewrite (lift_waitFor_connects _ k) by exact Hready.
  change (probes (base_of [CallNewDriver host])) with 0%nat.
  destruct (counters_after_wait k) as [Hr Hq].
  unfold pbind at 1.
  rewrite insertData_accepted_run by (rewrite Hr, Hq; exact Hins).
  set (t3 := [CallNewDriver host] ++ map Base (waitFor_connected d 0 k)
             ++ Base EvNewSession :: map statement_call insert_statements
             ++ [all_insert_log; Base EvSessionClose]).
  rewrite <- app_assoc. fold t3.
  assert (Hq3 : queries (base_of t3) = 14%nat).
  { unfold t3. rewrite !base_of_app, !queries_app, base_of_map_Base,
      queries_waitFor_connected. reflexivity. }
  unfold pbind at 1.
  rewrite (lift_count_value t3 nodes_query countAllNodes n)
    by (rewrite ?Hq3; auto).
  unfold pbind at 1. unfold slog_Info. rewrite lift_emit.
  unfold pbind at 1.
  rewrite (lift_count_value _ edges_query countAllEdges m);
    rewrite ?base_of_app, ?queries_app, ?Hq3; auto.
  unfold pbind at 1. rewrite lift_emit. unfold pret, DriverClose.
  unfold t3. rewrite <- !app_assoc. reflexivity.
Qed.

(** X8: when the answer to the first count query has no error but its
    first value is missing or is not an [int64], [main] panics, and on
    this way out the deferred [driver.Close] does run, as the last
    call. *)
Theorem main_panics_then_closes (k : nat) :
  ready_at d 0 k ->
  Forall (fun a => a = None) (answers env d 0 0 insert_statements) ->
  snd (query_at d 14 nodes_query) = None ->
  (forall n, first_value (query_at d 14 nodes_query) <> Some (VInt64 n)) ->
  exists p,
    main fuel env []
    = (Panics p,
       CallNewDriver host
         :: map Base (waitFor_connected d 0 k)
         ++ Base EvNewSession
         :: map statement_call insert_statements
         ++ [all_insert_log; Base EvSessionClose;
             Base (EvExecuteQuery nodes_query);
             CallDriverClose]).
Proof.
  intros Hready Hins Hne Hnv.
  set (t3 := [CallNewDriver host] ++ map Base (waitFor_connected d 0 k)
             ++ Base EvNewSession :: map statement_call insert_statements
             ++ [all_insert_log; Base EvSessionClose]).
  assert (Hq3 : queries (base_of t3) = 14%nat).
  { unfold t3. rewrite !base_of_app, !queries_app, base_of_map_Base,
      queries_waitFor_connected. reflexivity. }
  destruct (lift_count_panics t3 nodes_query countAllNodes) as [p Hp];
    rewrite ?Hq3; auto.
  exists p. main_start.
  rewrite (lift_waitFor_connects _ k) by exact Hready.
  change (probes (base_of [CallNewDriver host])) with 0%nat.
  destruct (counters_after_wait k) as [Hr Hq].
  unfold pbind at 1.
  rewrite insertData_accepted_run by (rewrite Hr, Hq; exact Hins).
  rewrite <- app_assoc. fold t3.
  unfold pbind at 1. rewrite Hp. unfold DriverClose.
  unfold t3. rewrite <- !app_assoc. reflexivity.
Qed.

End MainRuns.

Lemma ready_at_once (answer : QueryReturn) (c : nat) :
  ready_at (ready_after 0 answer) c 0.
Proof.
  split; [lia|]. split; [intros i Hi; lia | reflexivity].
Qed.

Lemma main_gives_up_witness :
  fst (main 101 unreachable [])
  = Exits 1 "Could not connect to memgraph: could not connect to memgraph even though it took 101 attemps".
Proof.
  rewrite (main_gives_up 101 unreachable refusing).
  - reflexivity.
  - lia.
  - reflexivity.
  - intros i _. cbn. discriminate.
Defined.

Lemma main_insert_failure_witness :
  fst (main 101 (failing_run 2) [])
  = Exits 1 "Could not insert data into memgraph: index exists".
Proof.
  rewrite (main_insert_failure 101 (failing_run 2)
             (ready_after 0 (single (VInt64 8))) (le_n 101) eq_refl
             0 2 "index exists").
  - reflexivity.
  - apply ready_at_once.
  - split; [reflexivity|].
    intros j Hj. do 2 (destruct j as [|j]; [reflexivity|]). lia.
Defined.

Lemma main_success_witness :
  fst (main 101 willing []) = Returns tt.
Proof.
  rewrite (main_success 101 willing (ready_after 0 (single (VInt64 8)))
             (le_n 101) eq_refl 0 8 8); try reflexivity.
  - apply ready_at_once.
  - vm_compute. repeat constructor.
Defined.

Lemma main_panics_then_closes_witness :
  exists p,
    main 101 empty_handed []
    = (Panics p,
       CallNewDriver host
         :: map Base (waitFor_connected (ready_after 0 no_rows) 0 0)
         ++ Base EvNewSession
         :: map statement_call insert_statements
         ++ [all_insert_log; Base EvSessionClose;
             Base (EvExecuteQuery nodes_query);
             CallDriverClose]).
Proof.
  apply (main_panics_then_closes 101 empty_handed (ready_after 0 no_rows)
           (le_n 101) eq_refl 0).
  - apply ready_at_once.
  - vm_compute. repeat constructor.
  - reflexivity.
  - intros n. cbn. discriminate.
Defined.

(* ================================================================== *)
(** ** More on the two readiness loops *)

Lemma slept_app (t u : list Event) : slept (t ++ u) = slept t + slept u.
Proof.
  induction t as [|e t IH]; [reflexivity|].
  destruct e; cbn [List.app slept]; rewrite IH; lia.
Qed.

Lemma slept_waitFor_failures (d : Driver) (c : nat) (a : Z) (k : nat) :
  slept (waitFor_failures d c a k) = Z.of_nat k * Second.
Proof.
  revert c a. induction k as [|k IH]; intros c a; [reflexivity|].
  cbn [waitFor_failures slept attempt_log]. rewrite IH. lia.
Qed.

Lemma slept_TestMain_failures (d : Driver) (c k : nat) :
  slept (TestMain_failures d c k) = Z.of_nat k * Second.
Proof.
  revert c. induction k as [|k IH]; intros c; [reflexivity|].
  cbn [TestMain_failures slept]. rewrite IH. lia.
Qed.

(** X9: when the probe fails [k <= 10] times and then succeeds, the loop
    of [TestMain] is left normally after exactly [k + 1] probes, having
    slept [k] seconds. *)
Theorem TestMain_wait_eventual_success (d : Driver) (fuel : nat) (w : World)
  (k : nat) :
  (k <= 10)%nat ->
  (k < fuel)%nat ->
  fails_from d (probes w) k ->
  verify_at d (probes w + k) = None ->
  exists w',
    TestMain_wait fuel d w = (Returns tt, w')
    /\ probes (events_since w w') = S k
    /\ slept (events_since w w') = Z.of_nat k * 1000000000.
Proof.
  intros Hk Hfuel Hf Hs. eexists. split; [|split].
  - apply (TestMain_wait_ready d fuel w k); assumption.
  - rewrite events_since_app. apply probes_TestMain_run.
  - rewrite events_since_app, slept_app, slept_TestMain_failures.
    cbn [slept]. unfold Second. lia.
Qed.

Lemma TestMain_wait_eventual_success_witness :
  exists w',
    TestMain_wait 4 (ready_after 3 no_rows) [] = (Returns tt, w')
    /\ probes (events_since [] w') = 4%nat
    /\ slept (events_since [] w') = 3 * 1000000000.
Proof.
  apply (TestMain_wait_eventual_success (ready_after 3 no_rows) 4 [] 3).
  - lia.
  - lia.
  - intros i Hi. do 3 (destruct i as [|i]; [cbn; discriminate|]). lia.
  - reflexivity.
Defined.

(** X10: neither loop sleeps before its first probe or after its last
    one: the time slept is one second less than the number of probes, so
    at most 100 seconds in [waitFor] and 10 seconds in [TestMain]. *)
Theorem wait_total_sleep (d : Driver) (fuel : nat) (w : World) :
  (101 <= fuel)%nat ->
  let t := events_since w (snd (waitFor fuel d w)) in
  let t' := events_since w (snd (TestMain_wait fuel d w)) in
  slept t = (Z.of_nat (probes t) - 1) * 1000000000
  /\ slept t <= 100 * 1000000000
  /\ slept t' = (Z.of_nat (probes t') - 1) * 1000000000
  /\ slept t' <= 10 * 1000000000.
Proof.
  intros Hfuel. cbv zeta.
  assert (Hmain :
    slept (events_since w (snd (waitFor fuel d w)))
    = (Z.of_nat (probes (events_since w (snd (waitFor fuel d w)))) - 1) * Second
    /\ slept (events_since w (snd (waitFor fuel d w))) <= 100 * Second).
  { destruct (waitFor_run d fuel w Hfuel)
      as [(k & Hk & Hf & Hs & Hrun) | [Hf Hrun]];
      rewrite Hrun; cbn [snd]; rewrite events_since_app, slept_app,
        slept_waitFor_failures.
    - rewrite (probes_connect_run d (probes w) k) by reflexivity.
      cbn [slept connected_log]. unfold Second. lia.
    - rewrite (probes_connect_run d (probes w) 100) by reflexivity.
      cbn [slept attempt_log]. unfold Second. lia. }
  assert (Htest :
    slept (events_since w (snd (TestMain_wait fuel d w)))
    = (Z.of_nat (probes (events_since w (snd (TestMain_wait fuel d w)))) - 1)
      * Second
    /\ slept (events_since w (snd (TestMain_wait fuel d w))) <= 10 * Second).
  { destruct (TestMain_wait_run d fuel w)
      as [(k & Hk & Hf & Hs & Hrun) | (e & Hf & He & Hrun)];
      [lia | |]; rewrite Hrun; cbn [snd]; rewrite events_since_app, slept_app,
        slept_TestMain_failures, probes_TestMain_run;
      cbn [slept]; unfold Second; lia. }
  unfold Second in *. destruct Hmain, Htest. auto.
Qed.

Lemma wait_total_sleep_witness :
  slept (events_since [] (snd (waitFor 101 refusing []))) = 100 * 1000000000
  /\ slept (events_since [] (snd (TestMain_wait 101 refusing [])))
     = 10 * 1000000000.
Proof.
  destruct (wait_total_sleep refusing 101 [] (le_n 101))
    as (Hmain & _ & Htest & _).
  split.
  - rewrite Hmain. vm_compute. reflexivity.
  - rewrite Htest. vm_compute. reflexivity.
Defined.

Lemma waits_only_waitFor_failures (d : Driver) (c : nat) (a : Z) (k : nat) :
  forallb waits_only (waitFor_failures d c a k) = true.
Proof.
  revert c a. induction k as [|k IH]; intros c a; [reflexivity|].
  cbn [waitFor_failures forallb]. rewrite IH. reflexivity.
Qed.

(** X11: [waitFor] does nothing on the outside but probe, log and sleep:
    it sends no query and opens or closes no session, so the number of
    queries sent so far is the same after it as before. *)
Theorem waitFor_only_waits (d : Driver) (fuel : nat) (w : World) :
  (101 <= fuel)%nat ->
  forallb waits_only (events_since w (snd (waitFor fuel d w))) = true
  /\ queries (snd (waitFor fuel d w)) = queries w.
Proof.
  intros Hfuel.
  destruct (waitFor_run d fuel w Hfuel)
    as [(k & Hk & Hf & Hs & Hrun) | [Hf Hrun]];
    rewrite Hrun; cbn [snd]; rewrite events_since_app, forallb_app,
      waits_only_waitFor_failures, !queries_app, queries_waitFor_failures;
    split; try reflexivity; cbn; lia.
Qed.

Lemma waitFor_only_waits_witness :
  queries (snd (waitFor 101 (ready_after 3 no_rows) [EvExecuteQuery nodes_query]))
  = 1%nat.
Proof.
  rewrite (proj2 (waitFor_only_waits (ready_after 3 no_rows) 101
                    [EvExecuteQuery nodes_query] (le_n 101))).
  reflexivity.
Defined.

(** X12: [deleteEverything] opens a session and sends its one statement;
    when it returns, the deferred [session.Close] has run as its last
    call, but when the statement fails and [log.Fatalf] ends the process,
    the session is never closed. *)
Theorem deleteEverything_session (d : Driver) (w : World) :
  match snd (query_at d (queries w) delete_query) with
  | None =>
      deleteEverything d w
      = (Returns None,
         w ++ [EvNewSession; EvExecuteQuery delete_query; EvSessionClose])
  | Some e =>
      deleteEverything d w
      = (Exits 1 ("Could not delete everything: " ++ e)%string,
         w ++ [EvNewSession; EvExecuteQuery delete_query])
  end.
Proof.
  assert (Hq : queries (w ++ [EvNewSession]) = queries w)
    by (rewrite queries_app; cbn; lia).
  unfold deleteEverything, delete_query, bind, defer, NewSession, SessionClose,
    emit, ExecuteQuery.
  cbv zeta. rewrite Hq.
  destruct (query_at d (queries w) "MATCH (n) DETACH DELETE n;") as [res [e|]];
    cbn [snd]; unfold log_Fatalf; rewrite ?delete_fatal_text; unfold ret;
    rewrite <- !app_assoc; reflexivity.
Qed.

(** X13: when the database is ready within the first 11 probes, the two
    readiness loops do the same probes and sleeps and both end normally:
    without its log lines, what [waitFor] adds to the history is what the
    loop of [TestMain] adds. *)
Theorem loops_agree_without_logs (d : Driver) (fuel : nat) (w : World)
  (k : nat) :
  (k <= 10)%nat ->
  (k < fuel)%nat ->
  fails_from d (probes w) k ->
  verify_at d (probes w + k) = None ->
  fst (waitFor fuel d w) = Returns None
  /\ fst (TestMain_wait fuel d w) = Returns tt
  /\ erase_slog (events_since w (snd (waitFor fuel d w)))
     = events_since w (snd (TestMain_wait fuel d w)).
Proof.
  intros Hk Hfuel Hf Hs.
  rewrite (waitFor_connects d fuel w k), (TestMain_wait_ready d fuel w k)
    by (assumption || lia).
  cbn [fst snd]. rewrite !events_since_app, erase_slog_app,
    erase_slog_waitFor_failures.
  repeat split.
Qed.

Lemma loops_agree_without_logs_witness :
  erase_slog (events_since [] (snd (waitFor 4 (ready_after 3 no_rows) [])))
  = events_since [] (snd (TestMain_wait 4 (ready_after 3 no_rows) [])).
Proof.
  apply (loops_agree_without_logs (ready_after 3 no_rows) 4 [] 3).
  - lia.
  - lia.
  - intros i Hi. do 3 (destruct i as [|i]; [cbn; discriminate|]). lia.
  - reflexivity.
Defined.

(* ================================================================== *)
(** ** [main] and its deferred [driver.Close] *)

Lemma driver_closes_app (t u : Trace) :
  driver_closes (t ++ u) = (driver_closes t + driver_closes u)%nat.
Proof.
  induction t as [|c t IH]; [reflexivity|].
  destruct c; cbn [List.app driver_closes]; rewrite IH; reflexivity.
Qed.

Lemma driver_closes_map_Base (u : list Event) : driver_closes (map Base u) = 0%nat.
Proof. induction u as [|e u IH]; [reflexivity|exact IH]. Qed.

Lemma driver_closes_statements (l : list Statement) :
  driver_closes (map statement_call l) = 0%nat.
Proof.
  induction l as [|s l IH]; [reflexivity|]. destruct s; exact IH.
Qed.

Lemma lift_panic {A} (p : RuntimePanic) (t : Trace) :
  lift (@panic A p) t = (Panics p, t).
Proof.
  rewrite <- (app_nil_r t) at 2.
  apply (lift_appends _ t _ []). unfold panic. now rewrite app_nil_r.
Qed.

(** A count helper inside the whole program: one query, and then a
    result, an error or a panic. *)
Lemma lift_count_cases (d : Driver) (t : Trace) (query : string)
  (count : Driver -> M (Z * option error)) :
  (count = countAllNodes /\ query = nodes_query)
  \/ (count = countAllEdges /\ query = edges_query) ->
  exists r,
    lift (count d) t = (r, t ++ [Base (EvExecuteQuery query)])
    /\ ((exists n err, r = Returns (n, err)) \/ (exists p, r = Panics p)).
Proof.
  intros Hc.
  assert (H : exists r,
    count d (base_of t) = (r, base_of t ++ [EvExecuteQuery query])
    /\ ((exists n err, r = Returns (n, err)) \/ (exists p, r = Panics p))).
  { destruct Hc as [[-> ->] | [-> ->]];
      unfold countAllNodes, countAllEdges, nodes_query, edges_query, bind,
        ExecuteQuery; cbv zeta;
      (destruct (query_at d (queries (base_of t)) _) as [res [e|]];
       [eexists; split; [reflexivity|]; left; eauto|]);
      unfold first_int64, bind, deref, index, assert_int64, ret, panic;
      (destruct res as [[keys [|[[rk [|v vs]]|] rows]]|];
       try (eexists; split; [reflexivity|]; right; eauto; fail));
      destruct v; eexists; (split; [reflexivity|]); eauto. }
  destruct H as (r & Hrun & Hr). exists r. split; [|exact Hr].
  now apply (lift_appends _ t _ [EvExecuteQuery query]).
Qed.

Ltac closes_count :=
  repeat (progress
            (repeat (rewrite driver_closes_app
                     || rewrite driver_closes_map_Base
                     || rewrite driver_closes_statements);
             cbn [driver_closes List.app Nat.add]));
  try reflexivity; try lia.

(** X14: [main] closes the driver on some ways out and not on others.
    When it returns, [driver.Close] has run exactly once, as the last
    call.  When it ends the process through [log.Fatalf], [driver.Close]
    has not run at all.  When it panics, [driver.Close] has run as the
    last call, unless there was no driver to close. *)
Theorem main_close_discipline (fuel : nat) (env : Env) :
  (101 <= fuel)%nat ->
  let (r, t) := main fuel env [] in
  match r with
  | Returns _ =>
      exists u, t = u ++ [CallDriverClose] /\ driver_closes u = 0%nat
  | Exits _ _ => driver_closes t = 0%nat
  | Panics _ =>
      t = [CallNewDriver host]
      \/ exists u, t = u ++ [CallDriverClose] /\ driver_closes u = 0%nat
  | Unfinished => False
  end.
Proof.
  intros Hfuel. unfold main. cbv zeta. rewrite host_text.
  unfold pbind at 1. unfold NewDriverWithContext.
  change ([] ++ [CallNewDriver host]) with [CallNewDriver host].
  destruct (new_driver env host) as [[d|] [e|]];
    try (rewrite lift_log_Fatalf; reflexivity).
  2: { unfold pbind at 1. cbn [deref]. rewrite lift_panic. now left. }
  unfold pbind at 1. cbn [deref]. rewrite lift_ret.
  unfold pdefer, pbind at 1.
  destruct (waitFor_run d fuel (base_of [CallNewDriver host]) Hfuel)
    as [(k & Hk & Hf & Hs & Hrun) | [Hf Hrun]];
    rewrite (lift_appends _ _ _ _ Hrun).
  2: { rewrite lift_log_Fatalf. closes_count. }
  unfold pbind at 1.
  destruct (insertData_shape env d
              ([CallNewDriver host]
                 ++ map Base (waitFor_failures d
                                (probes (base_of [CallNewDriver host])) 0 k
                              ++ [EvVerifyConnectivity None; connected_log])))
    as (r & n & Hn & Hins & Hr).
  rewrite Hins. destruct r as [e|].
  { rewrite lift_log_Fatalf. closes_count. }
  unfold pbind at 1.
  match goal with |- context [lift (countAllNodes d) ?t] =>
    destruct (lift_count_cases d t nodes_query countAllNodes)
      as (r1 & Hc1 & [(n1 & [e1|] & ->) | (p1 & ->)]); [auto| | |];
    rewrite Hc1
  end.
  - rewrite lift_log_Fatalf. closes_count.
  - unfold pbind at 1. unfold slog_Info. rewrite lift_emit.
    unfold pbind at 1.
    match goal with |- context [lift (countAllEdges d) ?t] =>
      destruct (lift_count_cases d t edges_query countAllEdges)
        as (r2 & Hc2 & [(n2 & [e2|] & ->) | (p2 & ->)]); [auto| | |];
      rewrite Hc2
    end.
    + rewrite lift_log_Fatalf. closes_count.
    + unfold pbind at 1. rewrite lift_emit. unfold pret, DriverClose.
      eexists. split; [reflexivity|]. closes_count.
    + unfold DriverClose. right. eexists. split; [reflexivity|]. closes_count.
  - unfold DriverClose. right. eexists. split; [reflexivity|]. closes_count.
Qed.

Lemma main_close_discipline_witness :
  driver_closes (snd (main 101 unreachable [])) = 0%nat.
Proof.
  pose proof (main_close_discipline 101 unreachable (le_n 101)) as H.
  destruct (main 101 unreachable []) as [r t] eqn:E.
  assert (Hr : r = Exits 1 "Could not connect to memgraph: could not connect to memgraph even though it took 101 attemps").
  { change r with (fst (r, t)). rewrite <- E. vm_compute. reflexivity. }
  rewrite Hr in H. exact H.
Defined.
